(** * Generic job-listing extraction engine: a shallow embedding

    The development follows [src/extractors/base_extractor.py],
    [src/extractors/base2_extractor.py] and [src/utils/scraper.py].

    - Strings are [string]; the JavaScript and Python string helpers the
      code relies on ([trim], [lower], [in], [match(/\d+/)]) are written out
      over ASCII.
    - A job is the dict the in-page scripts build; Python's [job not in jobs]
      is dict equality, i.e. equality of every field.
    - The browser is an oracle: every Playwright call is answered from the
      history of the calls made so far, and may raise.  Python code is
      written in a small state-and-exception monad over that history. *)

From stdpp Require Import base decidable option list strings.
From Stdlib Require Import Ascii String ZArith Lia.

Local Open Scope string_scope.
Local Open Scope list_scope.

(** ** Strings *)

Module Str.

(** The double-quote character, used inside attribute selectors. *)
Definition dq : string := String (ascii_of_nat 34) EmptyString.

(** [tag[attr op "val"]], e.g. [a[href*="/jobs/"]]. *)
Definition attr (tag name op val : string) : string :=
  tag +:+ "[" +:+ name +:+ op +:+ dq +:+ val +:+ dq +:+ "]".

(** White space removed by [String.prototype.trim] (ASCII range). *)
Definition is_whitespace (c : ascii) : bool :=
  match nat_of_ascii c with
  | 9 | 10 | 11 | 12 | 13 | 32 => true
  | _ => false
  end.

Fixpoint trim_start (s : string) : string :=
  match s with
  | EmptyString => EmptyString
  | String c s' => if is_whitespace c then trim_start s' else s
  end.

Fixpoint trim_end (s : string) : string :=
  match s with
  | EmptyString => EmptyString
  | String c s' =>
      match trim_end s' with
      | EmptyString => if is_whitespace c then EmptyString else String c EmptyString
      | r => String c r
      end
  end.

(** JavaScript [s.trim()]. *)
Definition trim (s : string) : string := trim_end (trim_start s).

(** JavaScript truthiness of a string: non-empty. *)
Definition truthy (s : string) : bool :=
  match s with EmptyString => false | _ => true end.

Definition is_digit (c : ascii) : bool :=
  let n := nat_of_ascii c in (48 <=? n)%nat && (n <=? 57)%nat.

Fixpoint take_digits (s : string) : string :=
  match s with
  | EmptyString => EmptyString
  | String c s' => if is_digit c then String c (take_digits s') else EmptyString
  end.

(** [url.match(/\d+/)]: the first maximal run of digits, if any. *)
Fixpoint match_digits (s : string) : option string :=
  match s with
  | EmptyString => None
  | String c s' => if is_digit c then Some (take_digits s) else match_digits s'
  end.

Definition lower_ascii (c : ascii) : ascii :=
  let n := nat_of_ascii c in
  if (65 <=? n)%nat && (n <=? 90)%nat then ascii_of_nat (n + 32) else c.

(** Python [s.lower()] (ASCII range). *)
Fixpoint lower (s : string) : string :=
  match s with
  | EmptyString => EmptyString
  | String c s' => String (lower_ascii c) (lower s')
  end.

Fixpoint starts_with (p s : string) : bool :=
  match p, s with
  | EmptyString, _ => true
  | String a p', String b s' => if Ascii.eqb a b then starts_with p' s' else false
  | String _ _, EmptyString => false
  end.

(** Python [term in s]. *)
Fixpoint contains (term s : string) : bool :=
  starts_with term s ||
  match s with
  | EmptyString => false
  | String _ s' => contains term s'
  end.

End Str.

(** ** Job records and the accumulation step *)

(** The dict a script builds for one listing.  [extract]'s script stores
    the four keys [title], [location], [url], [job_id]; the script of
    [extract_job_links] stores no [job_id] key ([None]). *)
Record Job := {
  title : string;
  location : string;
  url : string;
  job_id : option string
}.

#[global] Instance Job_eq_dec : EqDecision Job.
Proof. solve_decision. Defined.

(** [for job in page_jobs: if job not in jobs: jobs.append(job)]
    (base_extractor.py 231-233, base2_extractor.py 153-155). *)
Fixpoint add_new_jobs (jobs page_jobs : list Job) : list Job :=
  match page_jobs with
  | [] => jobs
  | job :: rest =>
      add_new_jobs (if decide (job ∈ jobs) then jobs else jobs ++ [job]) rest
  end.

(** ** The DOM as the in-page scripts see it *)

Module Dom.

(** Result of a DOM call that may throw (a [SyntaxError] on a selector the
    engine does not support). *)
Inductive js (A : Type) : Type :=
| Ok (a : A)
| Throw.
Arguments Ok {A} a.
Arguments Throw {A}.

(** An element as the scripts read it: [href] is [None] where the property
    is undefined (not an anchor). *)
Record Element := {
  tagName : string;
  href : option string;
  textContent : string
}.

(** A job container: the element itself and what [querySelector] answers
    below it. *)
Record Container := {
  self : Element;
  querySelector : string -> js (option Element)
}.

Record Document := {
  querySelectorAll : string -> js (list Container)
}.

(** Truthiness of [element.href]. *)
Definition has_href (e : Element) : bool :=
  match href e with
  | Some h => Str.truthy h
  | None => false
  end.

(** [element.href] once it is known to be truthy. *)
Definition href_of (e : Element) : string := default "" (href e).

(** Truthiness of [link?.href]. *)
Definition opt_has_href (link : option Element) : bool :=
  match link with
  | Some e => has_href e
  | None => false
  end.

End Dom.

(** ** Pattern library *)

Record Selectors := {
  containers : list string;
  title_selectors : list string;
  location_selectors : list string;
  link_selectors : list string
}.

(** ** The script evaluated by [extract] (base_extractor.py 159-228) *)

Module ExtractScript.
Import Dom.

(** Lines 169-176: the first container selector with at least one match is
    used for the whole page.  [querySelectorAll] is not guarded here, so a
    selector that throws ends the script. *)
Fixpoint find_containers (document : Document) (containerSelectors : list string)
  : js (list Container) :=
  match containerSelectors with
  | [] => Ok []
  | selector :: rest =>
      match querySelectorAll document selector with
      | Throw => Throw
      | Ok elements =>
          if (0 <? List.length elements)%nat then Ok elements
          else find_containers document rest
      end
  end.

(** Lines 181-188 and 191-198: the title and the location loops. *)
Fixpoint find_text (container : Container) (selectors : list string) : js string :=
  match selectors with
  | [] => Ok ""
  | selector :: rest =>
      match querySelector container selector with
      | Throw => Throw
      | Ok (Some element) => Ok (Str.trim (textContent element))
      | Ok None => find_text container rest
      end
  end.

(** Lines 201-214: the link loop; yields [(url, job_id)]. *)
Fixpoint find_link (container : Container) (linkSelectors : list string)
  : js (string * string) :=
  match linkSelectors with
  | [] => Ok ("", "")
  | selector :: rest =>
      match querySelector container selector with
      | Throw => Throw
      | Ok (Some element) =>
          if has_href element then
            let url := href_of element in
            Ok (url, default "" (Str.match_digits url))
          else find_link container rest
      | Ok None => find_link container rest
      end
  end.

(** The body of the [try] of one container (lines 180-218): [Ok (Some job)]
    when a record is pushed, [Ok None] when the test of line 216 fails. *)
Definition process_container (s : Selectors) (container : Container)
  : js (option Job) :=
  match find_text container (title_selectors s) with
  | Throw => Throw
  | Ok title =>
      match find_text container (location_selectors s) with
      | Throw => Throw
      | Ok location =>
          match find_link container (link_selectors s) with
          | Throw => Throw
          | Ok (url, job_id) =>
              if Str.truthy title && (Str.truthy url || Str.truthy location)
              then Ok (Some {| title := title; location := location;
                               url := url; job_id := Some job_id |})
              else Ok None
          end
      end
  end.

(** [try { ... } catch (e) { console.error(...) }] around one container. *)
Definition guarded_container (s : Selectors) (container : Container) : option Job :=
  match process_container s container with
  | Ok r => r
  | Throw => None
  end.

(** The whole arrow function: the value of [page_jobs]. *)
Definition page_jobs (s : Selectors) (document : Document) : js (list Job) :=
  match find_containers document (containers s) with
  | Throw => Throw
  | Ok cs => Ok (omap (guarded_container s) cs)
  end.

End ExtractScript.

(** ** The script evaluated by [extract_job_links]
    (base_extractor.py 285-357, base2_extractor.py 207-279) *)

Module JobLinksScript.
Import Dom.

Fixpoint safeQuerySelector (element : Container) (selectors : list string)
  : option Element :=
  match selectors with
  | [] => None
  | selector :: rest =>
      match querySelector element selector with
      | Ok (Some found) => Some found
      | Ok None => safeQuerySelector element rest
      | Throw => safeQuerySelector element rest
      end
  end.

(** The loop of [findJobElements], from the current value of [elements]. *)
Fixpoint findJobElements_loop (document : Document) (containers : list string)
  (elements : list Container) : list Container :=
  match containers with
  | [] => elements
  | selector :: rest =>
      match querySelectorAll document selector with
      | Ok found => findJobElements_loop document rest (elements ++ found)
      | Throw => findJobElements_loop document rest elements
      end
  end.

Definition findJobElements (document : Document) (containers : list string)
  : list Container :=
  findJobElements_loop document containers [].

(** The link loop: [link] is overwritten by every selector tried and the
    loop stops at the first one whose element has a truthy [href]. *)
Fixpoint find_link (container : Container) (linkSelectors : list string)
  (link : option Element) : option Element :=
  match linkSelectors with
  | [] => link
  | linkSelector :: rest =>
      let link := safeQuerySelector container [linkSelector] in
      if opt_has_href link then link else find_link container rest link
  end.

(** [a?.textContent || b]. *)
Definition text_or (found : option Element) (fallback : string) : string :=
  match found with
  | Some e => if Str.truthy (textContent e) then textContent e else fallback
  | None => fallback
  end.

(** The body of [jobElements.forEach]: the record added for one container,
    if any. *)
Definition process_container (s : Selectors) (container : Container) : option Job :=
  let link := find_link container (link_selectors s) None in
  let link :=
    if negb (opt_has_href link) && bool_decide (tagName (self container) = "A")
    then Some (self container) else link in
  match link with
  | Some l =>
      if has_href l then
        let title := text_or (safeQuerySelector container (title_selectors s))
                             (textContent l) in
        let location := text_or (safeQuerySelector container (location_selectors s)) "" in
        if Str.truthy (Str.trim title) then
          Some {| url := href_of l; title := Str.trim title;
                  location := Str.trim location; job_id := None |}
        else None
      else None
  | None => None
  end.

(** [jobs.add(JSON.stringify(job))] on a [Set]: the serialisation has a fixed
    key order and so is one-to-one on records; the set keeps insertion
    order and ignores a string it already holds. *)
Definition Set_add (jobs : list Job) (job : Job) : list Job :=
  if decide (job ∈ jobs) then jobs else jobs ++ [job].

Fixpoint collect (s : Selectors) (jobElements : list Container) (jobs : list Job)
  : list Job :=
  match jobElements with
  | [] => jobs
  | container :: rest =>
      match process_container s container with
      | Some job => collect s rest (Set_add jobs job)
      | None => collect s rest jobs
      end
  end.

(** The whole arrow function: [Array.from(jobs).map(job => JSON.parse(job))]. *)
Definition job_links (s : Selectors) (document : Document) : list Job :=
  collect s (findJobElements document (containers s)) [].

End JobLinksScript.

(** ** Python over a browser that may fail *)

Module Py.

(** An [ElementHandle]. *)
Definition handle := nat.

(** Exceptions; every handler in the code is [except Exception] or a bare
    [except], so the class only matters to the reader. *)
Inductive exn : Type :=
| TimeoutError
| Error.

Inductive outcome (A : Type) : Type :=
| Returned (a : A)
| Raised (e : exn).
Arguments Returned {A} a.
Arguments Raised {A} e.

(** The calls made on the browser, the page and its handles, and the
    delays, in the order they are made. *)
Inductive call : Type :=
| NewContext
| NewPage
| Goto (url : string)
| WaitForLoadState
| WaitForSelector (selector : string)
| WaitForSelectorList (selectors : list string)
| QuerySelectorAll (selector : string)
| QuerySelector (selector : string)
| Evaluate
| Content
| Reload
| IsVisible (h : handle)
| GetAttribute (h : handle) (name : string)
| Click (h : handle)
| Screenshot
| Close
| Sleep (seconds : Z).

Definition trace := list call.

(** A browser session: what each call answers after a given history.  A
    time-out is the answer [Raised TimeoutError]. *)
Record World := {
  on_new_context : trace -> outcome unit;
  on_new_page : trace -> outcome unit;
  on_goto : trace -> string -> outcome unit;
  on_wait_for_load_state : trace -> outcome unit;
  on_wait_for_selector : trace -> string -> outcome (option handle);
  on_wait_for_selector_list : trace -> list string -> outcome (option handle);
  on_query_selector_all : trace -> string -> outcome (list handle);
  on_query_selector : trace -> string -> outcome (option handle);
  on_evaluate : trace -> outcome Dom.Document;
  on_content : trace -> outcome string;
  on_reload : trace -> outcome unit;
  on_is_visible : trace -> handle -> outcome bool;
  on_get_attribute : trace -> handle -> string -> outcome (option string);
  on_click : trace -> handle -> outcome unit;
  on_screenshot : trace -> outcome unit;
  on_close : trace -> outcome unit
}.

(** Computations: from the history so far to an outcome and the history
    after. *)
Definition M (A : Type) : Type := trace -> outcome A * trace.

Definition ret {A} (a : A) : M A := fun t => (Returned a, t).

Definition raise {A} (e : exn) : M A := fun t => (Raised e, t).

Definition bind {A B} (m : M A) (k : A -> M B) : M B :=
  fun t =>
    match m t with
    | (Returned a, t') => k a t'
    | (Raised e, t') => (Raised e, t')
    end.

(** [try: m  except: h]. *)
Definition try_except {A} (m : M A) (h : exn -> M A) : M A :=
  fun t =>
    match m t with
    | (Returned a, t') => (Returned a, t')
    | (Raised e, t') => h e t'
    end.

(** Run [m] and hand its outcome to the caller; never raises. *)
Definition attempt {A} (m : M A) : M (outcome A) :=
  fun t => let (r, t') := m t in (Returned r, t').

(** One call: answered from the history before it, then recorded. *)
Definition perform {A} (c : call) (answer : trace -> outcome A) : M A :=
  fun t => (answer t, t ++ [c]).

(** [await asyncio.sleep(seconds)]. *)
Definition sleep (seconds : Z) : M unit :=
  perform (Sleep seconds) (fun _ => Returned tt).

Declare Scope py_scope.
Delimit Scope py_scope with py.
Notation "'let*' x ':=' m 'in' k" := (bind m (fun x => k))
  (at level 10, x name, m at level 100, k at level 200,
   format "'[v' 'let*'  x  ':='  m  'in' '/' k ']'") : py_scope.
Notation "m ';;' k" := (bind m (fun _ => k))
  (at level 100, k at level 200, right associativity,
   format "'[v' m  ';;' '/' k ']'") : py_scope.

Section Calls.
Context (W : World).

Definition new_context : M unit := perform NewContext (on_new_context W).
Definition new_page : M unit := perform NewPage (on_new_page W).
Definition goto (url : string) : M unit :=
  perform (Goto url) (fun t => on_goto W t url).
Definition wait_for_load_state : M unit :=
  perform WaitForLoadState (on_wait_for_load_state W).
Definition wait_for_selector (selector : string) : M (option handle) :=
  perform (WaitForSelector selector) (fun t => on_wait_for_selector W t selector).
Definition wait_for_selector_list (selectors : list string) : M (option handle) :=
  perform (WaitForSelectorList selectors)
          (fun t => on_wait_for_selector_list W t selectors).
Definition query_selector_all (selector : string) : M (list handle) :=
  perform (QuerySelectorAll selector) (fun t => on_query_selector_all W t selector).
Definition query_selector (selector : string) : M (option handle) :=
  perform (QuerySelector selector) (fun t => on_query_selector W t selector).
Definition content : M string := perform Content (on_content W).
Definition reload : M unit := perform Reload (on_reload W).
Definition is_visible (h : handle) : M bool :=
  perform (IsVisible h) (fun t => on_is_visible W t h).
Definition get_attribute (h : handle) (name : string) : M (option string) :=
  perform (GetAttribute h name) (fun t => on_get_attribute W t h name).
Definition click (h : handle) : M unit :=
  perform (Click h) (fun t => on_click W t h).
Definition screenshot : M unit := perform Screenshot (on_screenshot W).
Definition close : M unit := perform Close (on_close W).

(** [await page.evaluate(script)]: the script runs on the document the page
    holds at that moment; a script that throws makes the call raise. *)
Definition evaluate {A} (script : Dom.Document -> Dom.js A) : M A :=
  (let* document := perform Evaluate (on_evaluate W) in
   match script document with
   | Dom.Ok v => ret v
   | Dom.Throw => raise Error
   end)%py.

End Calls.

End Py.

(** ** utils/scraper.py *)

Module Scraper.
Import Py.

(** [self.job_patterns['container_patterns']]. *)
Definition container_patterns : list string :=
  [ ".job-tile"; ".jobs-list"; ".job-card";
    Str.attr "div" "class" "*=" "job"; Str.attr "div" "class" "*=" "career";
    "[data-job-id]"; Str.attr "" "class" "*=" "job-item" ].

(** The terms of the keyword fallback. *)
Definition keywords : list string := [ "job"; "career"; "position" ].

(** [any(term in content.lower() for term in [...])]. *)
Definition has_keyword (content : string) : bool :=
  existsb (fun term => Str.contains term (Str.lower content)) keywords.

Section WithWorld.
Context (W : World).

(** Lines 70-78: the loop over the container patterns; the result is the
    value of [content_found] after it. *)
Fixpoint find_content (patterns : list string) : M bool :=
  match patterns with
  | [] => ret false
  | pattern :: rest =>
      (let* r := attempt (wait_for_selector W pattern) in
       match r with
       | Returned (Some _) => ret true
       | Returned None => find_content rest
       | Raised _ => find_content rest
       end)%py
  end.

Definition wait_for_page_load : M bool :=
  try_except
    (wait_for_load_state W;;
     let* content_found := find_content container_patterns in
     if content_found then ret true
     else
       let* content := content W in
       ret (has_keyword content))%py
    (fun _ => ret false).

End WithWorld.

End Scraper.

(** ** The methods the two extractor files share word for word *)

Module Extractor.
Import Py.

(** The local list [next_page_selectors] of [try_next_page] (the same in both files). *)
Definition next_page_selectors : list string :=
  [ Str.attr "" "aria-label" "*=" "Next";
    Str.attr "" "aria-label" "*=" "next";
    Str.attr "" "class" "*=" "next";
    Str.attr "" "class" "*=" "Next";
    Str.attr "a" "rel" "=" "next";
    ".next-page";
    ".nextPage";
    ".pagination__next";
    Str.attr "button" "aria-label" "*=" "next";
    Str.attr "button" "aria-label" "*=" "Next";
    Str.attr "button" "class" "*=" "next";
    Str.attr "button" "class" "*=" "Next";
    "button.next";
    "button.Next";
    Str.attr "" "data-action" "*=" "next";
    Str.attr "" "data-action" "*=" "Next";
    ".pagination li:last-child a";
    ".pagination__next a";
    Str.attr "" "class" "*=" "pagination-next";
    Str.attr "" "class" "*=" "pager-next";
    ".next-link";
    Str.attr "" "class" "*=" "arrow-next";
    Str.attr "" "class" "*=" "arrow_next";
    Str.attr "" "class" "*=" "chevron-right";
    Str.attr "" "aria-label" "=" "Forward";
    Str.attr "" "aria-label" "=" "Next Page";
    "#frmPagination";
    Str.attr "form" "id" "*=" "pagination";
    Str.attr "form" "class" "*=" "pagination";
    ("a:contains(" +:+ Str.dq +:+ "Next" +:+ Str.dq +:+ ")");
    ("a:contains(" +:+ Str.dq +:+ "next" +:+ Str.dq +:+ ")");
    ("a:contains(" +:+ Str.dq +:+ "Next Page" +:+ Str.dq +:+ ")");
    ("a:contains(" +:+ Str.dq +:+ "Show More" +:+ Str.dq +:+ ")");
    Str.attr "" "data-page" "=" "next";
    Str.attr "" "data-navigation" "=" "next";
    Str.attr "" "data-test" "*=" "next";
    Str.attr "" "data-testid" "*=" "next";
    ".load-more";
    ".loadMore";
    ".show-more";
    ".showMore";
    Str.attr "" "class" "*=" "next-icon";
    Str.attr "" "class" "*=" "nextIcon";
    ".icon-next";
    ".iconNext";
    Str.attr "" "class" "*=" "pagination-next";
    Str.attr "" "class" "*=" "pager-next";
    Str.attr "" "class" "*=" "paginate-next";
    Str.attr "a" "href" "*=" "page=";
    Str.attr "a" "href" "*=" "pageNumber=";
    Str.attr "a" "href" "*=" "pageNum=";
    ("[role=" +:+ Str.dq +:+ "button" +:+ Str.dq +:+ "][aria-label*=" +:+ Str.dq +:+ "next" +:+ Str.dq +:+ "]");
    ("[role=" +:+ Str.dq +:+ "button" +:+ Str.dq +:+ "][aria-label*=" +:+ Str.dq +:+ "Next" +:+ Str.dq +:+ "]");
    Str.attr "" "aria-controls" "*=" "pagination" ].

Section WithWorld.
Context (W : World) (selectors : Selectors).

(** [extract_job_links] (base_extractor.py 264-363,
    base2_extractor.py 186-285). *)
Definition extract_job_links : M (list Job) :=
  try_except
    (sleep 2;;
     let* ready := Scraper.wait_for_page_load W in
     let* go_on :=
       if negb ready then
         reload W;;
         sleep 5;;
         let* ready_again := Scraper.wait_for_page_load W in
         ret ready_again
       else ret true in
     if go_on then
       let* jobs := evaluate W (fun d => Dom.Ok (JobLinksScript.job_links selectors d)) in
       ret jobs
     else ret [])%py
    (fun _ => ret []).

(** The body of the [try] for one selector of [try_next_page]: [true] when
    the [return True] is reached, [false] when the [if] is not entered. *)
Definition next_page_step (selector : string) : M bool :=
  (let* next_button := query_selector W selector in
   match next_button with
   | None => ret false
   | Some button =>
       let* visible := is_visible W button in
       if visible then
         let* target := get_attribute W button "href" in
         (if Str.truthy (default "" target) then
            let* target := get_attribute W button "href" in
            match target with
            | Some url => goto W url
            | None => raise Error
            end
          else click W button);;
         wait_for_load_state W;;
         ret true
       else ret false
   end)%py.

(** The loop of [try_next_page]; an exception moves on to the next
    selector. *)
Fixpoint try_selectors (selectors : list string) : M bool :=
  match selectors with
  | [] => ret false
  | selector :: rest =>
      (let* r := attempt (next_page_step selector) in
       match r with
       | Returned true => ret true
       | Returned false => try_selectors rest
       | Raised _ => try_selectors rest
       end)%py
  end.

Definition try_next_page : M bool :=
  try_selectors next_page_selectors.

(** The [except] clause of both [extract] methods, once [page] is bound. *)
Definition on_error : exn -> M (list Job) :=
  fun _ =>
    (attempt (screenshot W);;
     close W;;
     ret [])%py.

End WithWorld.

End Extractor.

(** ** extractors/base_extractor.py *)

Module BaseExtractor.
Import Py.

(** [self.selectors] (its unused ['next_page_selectors'] entry is left
    out). *)
Definition selectors : Selectors := {|
  containers :=
    [ ".job-tile";
      "[data-job-id]";
      Str.attr "div" "class" "*=" "job";
      Str.attr "div" "class" "*=" "career";
      Str.attr "div" "class" "*=" "position";
      ".careers-list";
      ".job-card";
      Str.attr "" "class" "*=" "job-item";
      "article";
      ".listing";
      ".posting";
      ".bx--card-group__card";
      ".bx--tile.bx--card";
      ".bx--card__wrapper";
      ".bx--card__content";
      Str.attr "a" "ph-tevent" "=" "job_click";
      Str.attr "a" "data-ph-at-id" "=" "job-link";
      ".table--advanced-search__row";
      Str.attr "tr" "class" "*=" "table--advanced-search" ];
  title_selectors :=
    [ ".job-title";
      Str.attr "" "class" "*=" "job-title";
      Str.attr "" "class" "*=" "role-title";
      "h1";
      "h2";
      "h3";
      "h4";
      Str.attr "" "class" "*=" "title";
      ".bx--card__heading";
      ".bx--card__title";
      "div.job-title span";
      "[data-ph-at-job-title-text]";
      ".table--advanced-search__title";
      Str.attr "a" "id" "^=" "jotTitle_" ];
  location_selectors :=
    [ ".location-text";
      Str.attr "" "class" "*=" "location";
      ".job-location";
      "[data-location]";
      Str.attr "" "class" "*=" "city";
      Str.attr "" "class" "*=" "region";
      ".ibm--card__copy__inner";
      ".bx--card__copy";
      "[data-ph-at-job-location-text]";
      ".table--advanced-search__location" ];
  link_selectors :=
    [ Str.attr "a" "href" "*=" "/jobs/";
      Str.attr "a" "href" "*=" "/careers/";
      Str.attr "a" "href" "*=" "/positions/";
      Str.attr "a" "href" "*=" "/opportunities/";
      Str.attr "a" "href" "*=" "/openings/";
      Str.attr "a" "href" "*=" "/vacancy/";
      Str.attr "a" "href" "*=" "/role/";
      Str.attr "a" "href" "*=" "/details/";
      Str.attr "a" "href" "*=" "/description/";
      Str.attr "a" "href" "*=" "/apply/";
      Str.attr "a" "href" "*=" "job";
      Str.attr "a" "href" "*=" "career";
      Str.attr "a" "href" "*=" "position";
      Str.attr "a" "href" "*=" "posting";
      Str.attr "a" "href" "*=" "vacancy";
      Str.attr "a" "href" "*=" "opening";
      Str.attr "a" "href" "*=" "requisition";
      Str.attr "a" "href" "*=" "req-id";
      Str.attr "a" "href" "*=" "jobid";
      Str.attr "a" "href" "*=" "linkedin.com/jobs";
      Str.attr "a" "href" "*=" "workday.com/";
      Str.attr "a" "href" "*=" "lever.co/";
      Str.attr "a" "href" "*=" "greenhouse.io/";
      Str.attr "a" "href" "*=" "smartrecruiters.com";
      Str.attr "a" "href" "*=" "recruitingsite.com";
      Str.attr "a" "href" "*=" "brassring.com";
      Str.attr "a" "href" "*=" "icims.com";
      Str.attr "a" "href" "*=" "?job=";
      Str.attr "a" "href" "*=" "?posting=";
      Str.attr "a" "href" "*=" "?position=";
      Str.attr "a" "href" "*=" "?req=";
      Str.attr "a" "href" "*=" "?id=";
      Str.attr "a" "class" "*=" "job-link";
      Str.attr "a" "class" "*=" "career-link";
      Str.attr "a" "class" "*=" "position-link";
      Str.attr "a" "class" "*=" "posting-link";
      Str.attr "a" "id" "*=" "job-link";
      "a[data-job-id]";
      "a[data-posting-id]";
      Str.attr "a" "href" "*=" "employment";
      Str.attr "a" "href" "*=" "work-with-us";
      Str.attr "a" "href" "*=" "join-our-team";
      Str.attr "a" "href" "*=" "job-search";
      Str.attr "a" "href" "*=" "career-search";
      Str.attr "a" "href" "*=" "careers.ibm.com/job";
      Str.attr "a" "ph-tevent" "=" "job_click";
      Str.attr "a" "href" "*=" "pgcareers.com/";
      Str.attr "a" "href" "^=" "/en-in/details/";
      Str.attr "a" "id" "^=" "jotTitle_" ]
|}.

Section WithWorld.
Context (W : World).

Definition extract_job_links : M (list Job) := Extractor.extract_job_links W selectors.

Definition try_next_page : M bool := Extractor.try_next_page W.

(** Lines 138-147: wait for the first container selector that shows up. *)
Fixpoint await_containers (container_selectors : list string) : M unit :=
  match container_selectors with
  | [] => ret tt
  | container_selector :: rest =>
      (let* r := attempt (wait_for_selector W container_selector;;
                         query_selector_all W container_selector) in
       match r with
       | Returned (_ :: _) => ret tt
       | Returned [] => await_containers rest
       | Raised _ => await_containers rest
       end)%py
  end.

(** Lines 150-246: the [while current_page <= max_pages] loop.  [fuel]
    bounds the iterations; [Z.to_nat max_pages] is enough from page 1
    (lemma [base_pages_fuel]). *)
Fixpoint pages (fuel : nat) (max_pages current_page : Z) (jobs : list Job)
  : M (list Job) :=
  if (current_page <=? max_pages)%Z then
    match fuel with
    | O => ret jobs
    | S fuel =>
        (wait_for_load_state W;;
         sleep 2;;
         let* page_jobs := evaluate W (ExtractScript.page_jobs selectors) in
         let jobs := add_new_jobs jobs page_jobs in
         if (current_page >=? max_pages)%Z then ret jobs
         else
           let* next_page_found := try_next_page in
           if negb next_page_found then ret jobs
           else
             sleep 5;;
             pages fuel max_pages (current_page + 1) jobs)%py
    end
  else ret jobs.

(** Lines 129-250: the [try] block once [page] is bound. *)
Definition run (base_url : string) (max_pages : Z) : M (list Job) :=
  (goto W base_url;;
   wait_for_load_state W;;
   sleep 2;;
   await_containers (containers selectors);;
   let* jobs := pages (Z.to_nat max_pages) max_pages 1 [] in
   close W;;
   ret jobs)%py.

(** [extract]: when [new_page] itself raises, [page] is not in [locals()]
    and the handler returns at once. *)
Definition extract (base_url : string) (max_pages : Z) : M (list Job) :=
  (let* page := attempt (new_page W) in
   match page with
   | Raised _ => ret []
   | Returned _ => try_except (run base_url max_pages) (Extractor.on_error W)
   end)%py.

End WithWorld.

End BaseExtractor.

(** ** extractors/base2_extractor.py *)

Module Base2Extractor.
Import Py.

(** [self.selectors]. *)
Definition selectors : Selectors := {|
  containers :=
    [ ".job-tile";
      "[data-job-id]";
      Str.attr "div" "class" "*=" "job";
      Str.attr "div" "class" "*=" "career";
      Str.attr "div" "class" "*=" "position";
      ".careers-list";
      ".job-card";
      Str.attr "" "class" "*=" "job-item";
      "article";
      ".listing";
      ".posting" ];
  title_selectors :=
    [ ".job-title";
      Str.attr "" "class" "*=" "job-title";
      Str.attr "" "class" "*=" "role-title";
      "h1";
      "h2";
      "h3";
      "h4";
      Str.attr "" "class" "*=" "title" ];
  location_selectors :=
    [ ".location-text";
      Str.attr "" "class" "*=" "location";
      ".job-location";
      "[data-location]";
      Str.attr "" "class" "*=" "city";
      Str.attr "" "class" "*=" "region" ];
  link_selectors :=
    [ Str.attr "a" "href" "*=" "/jobs/";
      Str.attr "a" "href" "*=" "/careers/";
      Str.attr "a" "href" "*=" "/positions/";
      Str.attr "a" "href" "*=" "/opportunities/";
      Str.attr "a" "href" "*=" "/openings/";
      Str.attr "a" "href" "*=" "/vacancy/";
      Str.attr "a" "href" "*=" "/role/";
      Str.attr "a" "href" "*=" "/details/";
      Str.attr "a" "href" "*=" "/description/";
      Str.attr "a" "href" "*=" "/apply/";
      Str.attr "a" "href" "*=" "job";
      Str.attr "a" "href" "*=" "career";
      Str.attr "a" "href" "*=" "position";
      Str.attr "a" "href" "*=" "posting";
      Str.attr "a" "href" "*=" "vacancy";
      Str.attr "a" "href" "*=" "opening";
      Str.attr "a" "href" "*=" "requisition";
      Str.attr "a" "href" "*=" "req-id";
      Str.attr "a" "href" "*=" "jobid";
      Str.attr "a" "href" "*=" "linkedin.com/jobs";
      Str.attr "a" "href" "*=" "workday.com/";
      Str.attr "a" "href" "*=" "lever.co/";
      Str.attr "a" "href" "*=" "greenhouse.io/";
      Str.attr "a" "href" "*=" "smartrecruiters.com";
      Str.attr "a" "href" "*=" "recruitingsite.com";
      Str.attr "a" "href" "*=" "brassring.com";
      Str.attr "a" "href" "*=" "icims.com";
      Str.attr "a" "href" "*=" "?job=";
      Str.attr "a" "href" "*=" "?posting=";
      Str.attr "a" "href" "*=" "?position=";
      Str.attr "a" "href" "*=" "?req=";
      Str.attr "a" "href" "*=" "?id=";
      Str.attr "a" "class" "*=" "job-link";
      Str.attr "a" "class" "*=" "career-link";
      Str.attr "a" "class" "*=" "position-link";
      Str.attr "a" "class" "*=" "posting-link";
      Str.attr "a" "id" "*=" "job-link";
      "a[data-job-id]";
      "a[data-posting-id]";
      Str.attr "a" "href" "*=" "employment";
      Str.attr "a" "href" "*=" "work-with-us";
      Str.attr "a" "href" "*=" "join-our-team";
      Str.attr "a" "href" "*=" "job-search";
      Str.attr "a" "href" "*=" "career-search" ]
|}.

(** The selectors handed to [wait_for_selector] after the first
    navigation (lines 125-130). *)
Definition known_elements : list string :=
  [ ".job-tile"; ".table--advanced-search__title";
    Str.attr "div" "class" "*=" "job"; "#frmPagination" ].

Definition max_retries : nat := 3.

Section WithWorld.
Context (W : World).

Definition extract_job_links : M (list Job) := Extractor.extract_job_links W selectors.

Definition try_next_page : M bool := Extractor.try_next_page W.

(** Lines 121-133: one attempt at the initial load. *)
Definition load (base_url : string) : M unit :=
  (goto W base_url;;
   try_except (wait_for_selector_list W known_elements;; ret tt)
              (fun _ => wait_for_load_state W))%py.

(** Lines 119-141: [for attempt in range(max_retries)]. *)
Fixpoint load_with_retries (base_url : string) (attempts : list nat) : M unit :=
  match attempts with
  | [] => ret tt
  | attempt :: rest =>
      (let* r := Py.attempt (load base_url) in
       match r with
       | Returned _ => ret tt
       | Raised e =>
           if (attempt =? max_retries - 1)%nat then raise e
           else
             sleep 5;;
             load_with_retries base_url rest
       end)%py
  end.

(** Lines 143-168: the [while current_page <= max_pages] loop, with [fuel]
    as in [BaseExtractor.pages]. *)
Fixpoint pages (fuel : nat) (max_pages current_page : Z) (all_jobs : list Job)
  : M (list Job) :=
  if (current_page <=? max_pages)%Z then
    match fuel with
    | O => ret all_jobs
    | S fuel =>
        (sleep 3;;
         let* jobs := extract_job_links in
         let all_jobs := add_new_jobs all_jobs jobs in
         if (current_page >=? max_pages)%Z then ret all_jobs
         else
           let* next_page_found := try_next_page in
           if negb next_page_found then ret all_jobs
           else
             sleep 5;;
             pages fuel max_pages (current_page + 1) all_jobs)%py
    end
  else ret all_jobs.

(** Lines 112-172: the [try] block once [page] is bound. *)
Definition run (base_url : string) (max_pages : Z) : M (list Job) :=
  (load_with_retries base_url (seq 0 max_retries);;
   let* all_jobs := pages (Z.to_nat max_pages) max_pages 1 [] in
   close W;;
   ret all_jobs)%py.

(** [extract]: [page] is bound once [new_context] and [new_page] have both
    returned. *)
Definition extract (base_url : string) (max_pages : Z) : M (list Job) :=
  (let* page := attempt (new_context W;; new_page W) in
   match page with
   | Raised _ => ret []
   | Returned _ => try_except (run base_url max_pages) (Extractor.on_error W)
   end)%py.

End WithWorld.

End Base2Extractor.

(** * Specification vocabulary *)

Module Spec.
Import Py.

(** [m] never raises, and its value satisfies [P]. *)
Definition returns {A} (m : M A) (P : A -> Prop) : Prop :=
  forall t, exists a t', m t = (Returned a, t') /\ P a.

(** Whenever [m] returns, its value satisfies [P]. *)
Definition ensures {A} (m : M A) (P : A -> Prop) : Prop :=
  forall t a t', m t = (Returned a, t') -> P a.

(** What both scripts require of a record before they store it: a trimmed,
    non-empty title and a url or a location. *)
Definition well_formed (r : Job) : Prop :=
  title r <> "" /\ Str.trim (title r) = title r /\ (url r <> "" \/ location r <> "").


(** A candidate that fails under [c]: it matches nothing, or it throws. *)
Definition fails (c : Dom.Container) (selector : string) : Prop :=
  match Dom.querySelector c selector with
  | Dom.Ok (Some _) => False
  | _ => True
  end.

(** A link candidate that gives no usable link under [c]: it fails, or the
    element it finds has no [href]. *)
Definition no_link (c : Dom.Container) (selector : string) : Prop :=
  match Dom.querySelector c selector with
  | Dom.Ok (Some e) => Dom.has_href e = false
  | _ => True
  end.

(** The matches of a container selector in a document; none when the
    selector throws. *)
Definition matches (d : Dom.Document) (selector : string) : list Dom.Container :=
  match Dom.querySelectorAll d selector with
  | Dom.Ok l => l
  | Dom.Throw => []
  end.

(** A list of records is what one evaluation of [extract]'s script
    returned, for the selectors [s]. *)
Definition page_of_extract (s : Selectors) (p : list Job) : Prop :=
  exists d, ExtractScript.page_jobs s d = Dom.Ok p.

(** A list of records is what one call of [extract_job_links] returned, for
    the selectors [s]: the records of its script, or nothing. *)
Definition page_of_job_links (s : Selectors) (p : list Job) : Prop :=
  p = [] \/ exists d, p = JobLinksScript.job_links s d.

(** [l] is what accumulating the pages [ps], in order, on top of [jobs]
    gives, every page being one that [page] allows. *)
Definition accumulated (page : list Job -> Prop) (jobs l : list Job) : Prop :=
  exists ps, l = foldl add_new_jobs jobs ps /\ Forall page ps.

(** The rest of a run whose page loop stands at [loop]: the loop goes on
    inside the [try] of [extract], then the page is closed and the
    accumulator returned; the [except] clause takes whatever is raised. *)
Definition rest_of_run (W : World) (loop : M (list Job)) : M (list Job) :=
  try_except (let* jobs := loop in close W;; ret jobs)%py (Extractor.on_error W).

(** [s] without its white space. *)
Fixpoint remove_whitespace (s : string) : string :=
  match s with
  | EmptyString => EmptyString
  | String c s' =>
      if Str.is_whitespace c then remove_whitespace s'
      else String c (remove_whitespace s')
  end.

(** The key the specification gives for a listing, following its words
    and not the code: the title compared without regard to case or white
    space, the url compared exactly. *)
Definition spec_dedup_key (r : Job) : string * string :=
  (Str.lower (remove_whitespace (title r)), url r).

(** ** Browser behaviours *)


(** The network-idle signal never fires: every wait for it times out. *)
Definition idle_never_fires (W : World) : Prop :=
  forall t, on_wait_for_load_state W t = Raised TimeoutError.

(** No container pattern of the readiness check ever matches. *)
Definition no_container_ever_matches (W : World) : Prop :=
  forall t pattern,
    match on_wait_for_selector W t pattern with
    | Returned (Some _) => False
    | _ => True
    end.

(** The rendered content never holds one of the keywords. *)
Definition keyword_fallback_fails (W : World) : Prop :=
  forall t,
    match on_content W t with
    | Returned c => Scraper.has_keyword c = false
    | Raised _ => True
    end.

End Spec.

(** * Concrete pages and browser sessions *)

Module Scenario.
Import Dom Py.

Definition div : Element :=
  {| tagName := "DIV"; href := None; textContent := "" |}.

Definition text_element (tag text : string) : Element :=
  {| tagName := tag; href := None; textContent := text |}.

Definition anchor (target text : string) : Element :=
  {| tagName := "A"; href := Some target; textContent := text |}.

(** A listing card: a [div] with its title in an [h2], its location in a
    [.job-location] and a link to [/jobs/...]. *)
Definition card (title location target : string) : Container :=
  {| self := div;
     querySelector := fun selector =>
       if String.eqb selector "h2" then Ok (Some (text_element "H2" title))
       else if String.eqb selector ".job-location"
            then Ok (Some (text_element "SPAN" location))
       else if String.eqb selector (Str.attr "a" "href" "*=" "/jobs/")
            then Ok (Some (anchor target title))
       else Ok None |}.

(** A card with a title and a location but no link at all. *)
Definition card_without_link (title location : string) : Container :=
  {| self := div;
     querySelector := fun selector =>
       if String.eqb selector "h2" then Ok (Some (text_element "H2" title))
       else if String.eqb selector ".job-location"
            then Ok (Some (text_element "SPAN" location))
       else Ok None |}.


(** A document in which only [selector] matches, and matches [cs]. *)
Definition listing (selector : string) (cs : list Container) : Document :=
  {| querySelectorAll := fun s => if String.eqb s selector then Ok cs else Ok [] |}.

(** A document in which two selectors match, each its own cards. *)
Definition listing2 (selector1 : string) (cs1 : list Container)
  (selector2 : string) (cs2 : list Container) : Document :=
  {| querySelectorAll := fun s =>
       if String.eqb s selector1 then Ok cs1
       else if String.eqb s selector2 then Ok cs2
       else Ok [] |}.

Definition is_goto (c : call) : bool :=
  match c with Goto _ => true | _ => false end.

Definition is_sleep5 (c : call) : bool :=
  match c with Sleep 5 => true | _ => false end.

(** A session in which every call succeeds, the page always shows
    [document], the container selectors are present, and no next-page
    control is ever found. *)
Definition static (document : Document) : World :=
  {| on_new_context := fun _ => Returned tt;
     on_new_page := fun _ => Returned tt;
     on_goto := fun _ _ => Returned tt;
     on_wait_for_load_state := fun _ => Returned tt;
     on_wait_for_selector := fun _ _ => Returned (Some 0%nat);
     on_wait_for_selector_list := fun _ _ => Returned (Some 0%nat);
     on_query_selector_all := fun _ _ => Returned [0%nat];
     on_query_selector := fun _ _ => Returned None;
     on_evaluate := fun _ => Returned document;
     on_content := fun _ => Returned "";
     on_reload := fun _ => Returned tt;
     on_is_visible := fun _ _ => Returned true;
     on_get_attribute := fun _ _ _ => Returned None;
     on_click := fun _ _ => Returned tt;
     on_screenshot := fun _ => Returned tt;
     on_close := fun _ => Returned tt |}.

(** As [static], but a next-page button is always there, and once the
    delay between two pages has passed the network-idle signal no longer
    fires: the second page never becomes ready. *)
Definition second_page_hangs (document : Document) : World :=
  {| on_new_context := fun _ => Returned tt;
     on_new_page := fun _ => Returned tt;
     on_goto := fun _ _ => Returned tt;
     on_wait_for_load_state := fun t =>
       if existsb is_sleep5 t then Raised TimeoutError else Returned tt;
     on_wait_for_selector := fun _ _ => Returned (Some 0%nat);
     on_wait_for_selector_list := fun _ _ => Returned (Some 0%nat);
     on_query_selector_all := fun _ _ => Returned [0%nat];
     on_query_selector := fun _ _ => Returned (Some 1%nat);
     on_evaluate := fun _ => Returned document;
     on_content := fun _ => Returned "";
     on_reload := fun _ => Returned tt;
     on_is_visible := fun _ _ => Returned true;
     on_get_attribute := fun _ _ _ => Returned None;
     on_click := fun _ _ => Returned tt;
     on_screenshot := fun _ => Returned tt;
     on_close := fun _ => Returned tt |}.


(** A session in which nothing ever loads: every navigation and every
    wait times out, the content is empty; [close] still returns. *)
Definition dead : World :=
  {| on_new_context := fun _ => Returned tt;
     on_new_page := fun _ => Returned tt;
     on_goto := fun _ _ => Raised TimeoutError;
     on_wait_for_load_state := fun _ => Raised TimeoutError;
     on_wait_for_selector := fun _ _ => Raised TimeoutError;
     on_wait_for_selector_list := fun _ _ => Raised TimeoutError;
     on_query_selector_all := fun _ _ => Raised Error;
     on_query_selector := fun _ _ => Raised Error;
     on_evaluate := fun _ => Raised Error;
     on_content := fun _ => Returned "";
     on_reload := fun _ => Returned tt;
     on_is_visible := fun _ _ => Raised Error;
     on_get_attribute := fun _ _ _ => Raised Error;
     on_click := fun _ _ => Raised Error;
     on_screenshot := fun _ => Raised Error;
     on_close := fun _ => Returned tt |}.

(** As [dead], with a [close] that fails as well. *)
Definition dead_unclosable : World :=
  {| on_new_context := fun _ => Returned tt;
     on_new_page := fun _ => Returned tt;
     on_goto := fun _ _ => Raised TimeoutError;
     on_wait_for_load_state := fun _ => Raised TimeoutError;
     on_wait_for_selector := fun _ _ => Raised TimeoutError;
     on_wait_for_selector_list := fun _ _ => Raised TimeoutError;
     on_query_selector_all := fun _ _ => Raised Error;
     on_query_selector := fun _ _ => Raised Error;
     on_evaluate := fun _ => Raised Error;
     on_content := fun _ => Returned "";
     on_reload := fun _ => Returned tt;
     on_is_visible := fun _ _ => Raised Error;
     on_get_attribute := fun _ _ _ => Raised Error;
     on_click := fun _ _ => Raised Error;
     on_screenshot := fun _ => Raised Error;
     on_close := fun _ => Raised Error |}.

(** A session whose page never shows a container but whose content
    mentions a keyword, in capitals. *)
Definition keyword_only : World :=
  {| on_new_context := fun _ => Returned tt;
     on_new_page := fun _ => Returned tt;
     on_goto := fun _ _ => Returned tt;
     on_wait_for_load_state := fun _ => Returned tt;
     on_wait_for_selector := fun _ _ => Raised TimeoutError;
     on_wait_for_selector_list := fun _ _ => Raised TimeoutError;
     on_query_selector_all := fun _ _ => Returned [];
     on_query_selector := fun _ _ => Returned None;
     on_evaluate := fun _ => Returned (listing ".job-tile" []);
     on_content := fun _ => Returned ("Open " +:+ "POSITIONS" +:+ " at Acme");
     on_reload := fun _ => Returned tt;
     on_is_visible := fun _ _ => Returned true;
     on_get_attribute := fun _ _ _ => Returned None;
     on_click := fun _ _ => Returned tt;
     on_screenshot := fun _ => Returned tt;
     on_close := fun _ => Returned tt |}.

(** Two listings of the same post that differ in their location only. *)
Definition engineer_pune : Container :=
  card "Engineer" "Pune" "https://example.com/jobs/42".
Definition engineer_delhi : Container :=
  card "Engineer" "Delhi" "https://example.com/jobs/42".
Definition analyst : Container :=
  card "Analyst" "Pune" "https://example.com/jobs/7".




End Scenario.

(** * What a computation adds to the history *)

Module Traces.
Import Py.

(** Every run of [m] extends the history by a segment that satisfies [Q],
    whether it returns or raises. *)
Definition appends {A} (m : M A) (Q : trace -> Prop) : Prop :=
  forall t r t', m t = (r, t') -> exists new, t' = t ++ new /\ Q new.

(** [m] makes only calls that [p] accepts. *)
Definition only {A} (p : call -> bool) (m : M A) : Prop :=
  appends m (Forall (fun c => p c = true)).

(** Number of calls of a history that [p] accepts. *)
Fixpoint count (p : call -> bool) (t : trace) : nat :=
  match t with
  | [] => 0
  | c :: t' => (if p c then 1 else 0) + count p t'
  end.

(** [m] makes at most [n] calls that [p] accepts. *)
Definition at_most {A} (p : call -> bool) (n : nat) (m : M A) : Prop :=
  appends m (fun new => (count p new <= n)%nat).

Definition is_evaluate (c : call) : bool :=
  match c with Evaluate => true | _ => false end.

Definition is_reload (c : call) : bool :=
  match c with Reload => true | _ => false end.

Definition is_screenshot (c : call) : bool :=
  match c with Screenshot => true | _ => false end.

Definition is_goto (c : call) : bool :=
  match c with Goto _ => true | _ => false end.

(** The calls [try_next_page] makes on a next-page control. *)
Definition is_pagination (c : call) : bool :=
  match c with
  | QuerySelector _ | IsVisible _ | GetAttribute _ _ | Click _ => true
  | _ => false
  end.

(** Waiting and reading: calls that leave the page where it is. *)
Definition is_passive (c : call) : bool :=
  match c with
  | WaitForLoadState | WaitForSelector _ | Content => true
  | _ => false
  end.

(** The calls of one extraction pass of [extract_job_links]: delays, waits,
    reading, one kind of reload and the evaluation of the script. *)
Definition is_pass_call (c : call) : bool :=
  match c with
  | Sleep _ | WaitForLoadState | WaitForSelector _ | Content | Reload | Evaluate => true
  | _ => false
  end.

(** An activation of a next-page control. *)
Definition is_activation (c : call) : bool :=
  match c with
  | Click _ | Goto _ => true
  | _ => false
  end.

(** The calls [try_next_page] can make. *)
Definition is_next_page_call (c : call) : bool :=
  match c with
  | QuerySelector _ | IsVisible _ | GetAttribute _ _ | Click _ | Goto _
  | WaitForLoadState => true
  | _ => false
  end.

(** The calls of the page loops: those of a pass, those of [try_next_page]
    and the delays. *)
Definition is_loop_call (c : call) : bool :=
  is_pass_call c || is_next_page_call c.

Definition no_pagination (c : call) : bool := negb (is_pagination c).

Definition no_screenshot (c : call) : bool := negb (is_screenshot c).

End Traces.
(** * Properties *)

(** ** Strings *)

Module StrFacts.
Import Str.

Lemma truthy_true s : truthy s = true <-> s <> "".
Proof. destruct s; simpl; split; congruence. Qed.

Lemma truthy_false s : truthy s = false <-> s = "".
Proof. destruct s; simpl; split; congruence. Qed.

Lemma trim_end_idem s : trim_end (trim_end s) = trim_end s.
Proof.
  induction s as [|c s IH]; simpl; [reflexivity|].
  destruct (trim_end s) as [|d r] eqn:E.
  - destruct (is_whitespace c) eqn:W; simpl; [reflexivity|]. now rewrite W.
  - simpl in *. now rewrite IH.
Qed.

Lemma trim_start_head s c r :
  trim_start s = String c r -> is_whitespace c = false.
Proof.
  induction s as [|d s IH]; simpl; [discriminate|].
  destruct (is_whitespace d) eqn:W; [exact IH|].
  intros [= -> _]. exact W.
Qed.

Lemma trim_end_head s c r :
  trim_end s = String c r -> exists r', s = String c r'.
Proof.
  destruct s as [|d s]; simpl; [discriminate|].
  destruct (trim_end s); [destruct (is_whitespace d)|]; intros [= <- _]; eauto.
Qed.

(** Trimming twice is trimming once: a trimmed string is a fixed point. *)
Lemma trim_idem s : trim (trim s) = trim s.
Proof.
  unfold trim. destruct (trim_end (trim_start s)) as [|c r] eqn:E; [reflexivity|].
  destruct (trim_end_head _ _ _ E) as [r' Hs].
  pose proof (trim_start_head _ _ _ Hs) as W.
  rewrite <- E at 1. simpl trim_start at 1.
  rewrite E. simpl. rewrite W. rewrite <- E. apply trim_end_idem.
Qed.

End StrFacts.

(** ** The accumulation step *)

Section AddNewJobs.
Implicit Types (jobs page_jobs : list Job) (job : Job).

Lemma add_new_jobs_app jobs l1 l2 :
  add_new_jobs jobs (l1 ++ l2) = add_new_jobs (add_new_jobs jobs l1) l2.
Proof. revert jobs. induction l1 as [|x l1 IH]; intros jobs; simpl; auto. Qed.

Lemma add_new_jobs_prefix jobs page_jobs :
  jobs `prefix_of` add_new_jobs jobs page_jobs.
Proof.
  revert jobs. induction page_jobs as [|x l IH]; intros jobs; simpl.
  - reflexivity.
  - case_decide; [apply IH|].
    transitivity (jobs ++ [x]); [apply prefix_app_r; reflexivity | apply IH].
Qed.

Lemma elem_of_add_new_jobs job jobs page_jobs :
  job ∈ add_new_jobs jobs page_jobs <-> job ∈ jobs \/ job ∈ page_jobs.
Proof.
  revert jobs. induction page_jobs as [|x l IH]; intros jobs; simpl.
  - rewrite elem_of_nil. tauto.
  - rewrite IH, elem_of_cons. case_decide as Hin.
    + split; [tauto|]. intros [?|[->|?]]; auto.
    + rewrite elem_of_app, list_elem_of_singleton. tauto.
Qed.

Lemma NoDup_add_new_jobs jobs page_jobs :
  NoDup jobs -> NoDup (add_new_jobs jobs page_jobs).
Proof.
  revert jobs. induction page_jobs as [|x l IH]; intros jobs Hnd; simpl; [done|].
  apply IH. case_decide as Hin; [done|].
  apply NoDup_app. split_and!; [done| |apply NoDup_singleton].
  intros y Hy Hy'. apply list_elem_of_singleton in Hy'. by subst.
Qed.

Lemma add_new_jobs_absorb jobs page_jobs :
  Forall (fun job => job ∈ jobs) page_jobs -> add_new_jobs jobs page_jobs = jobs.
Proof.
  induction 1 as [|x l Hx _ IH]; simpl; [done|]. by rewrite decide_True.
Qed.

Lemma add_new_jobs_sublist jobs page_jobs :
  add_new_jobs jobs page_jobs `sublist_of` jobs ++ page_jobs.
Proof.
  revert jobs. induction page_jobs as [|x l IH]; intros jobs; simpl.
  - by rewrite app_nil_r.
  - case_decide.
    + etransitivity; [apply IH|]. apply sublist_app; [done|]. by apply sublist_cons.
    + etransitivity; [apply IH|]. by rewrite <- app_assoc.
Qed.

(** A later occurrence of a record already seen changes nothing. *)
Lemma add_new_jobs_seen jobs l1 x l2 :
  x ∈ jobs \/ x ∈ l1 ->
  add_new_jobs jobs (l1 ++ x :: l2) = add_new_jobs jobs (l1 ++ l2).
Proof.
  intros Hx. rewrite !add_new_jobs_app. simpl.
  rewrite decide_True; [done|]. by apply elem_of_add_new_jobs.
Qed.

(** The first occurrence of a record is appended right after what the
    records before it produced. *)
Lemma add_new_jobs_fresh jobs l1 x l2 :
  x ∉ jobs -> x ∉ l1 ->
  add_new_jobs jobs (l1 ++ x :: l2) = add_new_jobs (add_new_jobs jobs l1 ++ [x]) l2.
Proof.
  intros H1 H2. rewrite add_new_jobs_app. simpl.
  rewrite decide_False; [done|]. rewrite elem_of_add_new_jobs. tauto.
Qed.

Lemma add_new_jobs_idem jobs page_jobs :
  add_new_jobs (add_new_jobs jobs page_jobs) page_jobs = add_new_jobs jobs page_jobs.
Proof.
  apply add_new_jobs_absorb, Forall_forall. intros x Hx.
  apply elem_of_add_new_jobs. by right.
Qed.

(** Page after page is the same as all pages at once. *)
Lemma foldl_add_new_jobs jobs (pages : list (list Job)) :
  foldl add_new_jobs jobs pages = add_new_jobs jobs (List.concat pages).
Proof.
  revert jobs. induction pages as [|p ps IH]; intros jobs; simpl; [done|].
  by rewrite IH, add_new_jobs_app.
Qed.

End AddNewJobs.

(** ** Reasoning about computations *)

Module PyFacts.
Import Py Spec.

Lemma returns_ensures {A} (m : M A) P : returns m P -> ensures m P.
Proof. intros H t a t' E. destruct (H t) as (a' & t'' & E' & HP). congruence. Qed.

Lemma returns_weaken {A} (m : M A) (P Q : A -> Prop) :
  returns m P -> (forall a, P a -> Q a) -> returns m Q.
Proof. intros H HPQ t. destruct (H t) as (a & t' & E & HP). eauto. Qed.

Lemma ensures_weaken {A} (m : M A) (P Q : A -> Prop) :
  ensures m P -> (forall a, P a -> Q a) -> ensures m Q.
Proof. intros H HPQ t a t' E. eauto. Qed.

Lemma returns_ret {A} (a : A) (P : A -> Prop) : P a -> returns (ret a) P.
Proof. intros HP t. by exists a, t. Qed.

Lemma ensures_ret {A} (a : A) (P : A -> Prop) : P a -> ensures (ret a) P.
Proof. intros HP t a' t' [= <- _]. done. Qed.

Lemma ensures_raise {A} e (P : A -> Prop) : ensures (raise e) P.
Proof. intros t a t' [=]. Qed.

Lemma returns_bind {A B} (m : M A) (k : A -> M B) P Q :
  returns m P -> (forall a, P a -> returns (k a) Q) -> returns (bind m k) Q.
Proof.
  intros Hm Hk t. destruct (Hm t) as (a & t' & E & HP).
  unfold bind. rewrite E. by apply Hk.
Qed.

Lemma ensures_bind {A B} (m : M A) (k : A -> M B) P Q :
  ensures m P -> (forall a, P a -> ensures (k a) Q) -> ensures (bind m k) Q.
Proof.
  intros Hm Hk t b t'. unfold bind.
  destruct (m t) as [[a|e] t1] eqn:E; [|discriminate].
  intros Hb. eapply Hk; eauto.
Qed.

Lemma returns_attempt {A} (m : M A) P :
  ensures m P ->
  returns (attempt m) (fun r => match r with Returned a => P a | Raised _ => True end).
Proof.
  intros Hm t. unfold attempt.
  destruct (m t) as [[a|e] t1] eqn:E; eexists _, _; (split; [reflexivity|]); simpl; eauto.
Qed.

Lemma returns_try_except {A} (m : M A) (h : exn -> M A) P :
  ensures m P -> (forall e, returns (h e) P) -> returns (try_except m h) P.
Proof.
  intros Hm Hh t. unfold try_except.
  destruct (m t) as [[a|e] t1] eqn:E; [eauto|apply Hh].
Qed.

Lemma ensures_try_except {A} (m : M A) (h : exn -> M A) P :
  ensures m P -> (forall e, ensures (h e) P) -> ensures (try_except m h) P.
Proof.
  intros Hm Hh t a t'. unfold try_except.
  destruct (m t) as [[a'|e] t1] eqn:E.
  - intros [= <- _]. eauto.
  - apply Hh.
Qed.

Lemma returns_perform_sleep n : returns (sleep n) (fun _ => True).
Proof. intros t. by exists tt, (t ++ [Sleep n]). Qed.

Lemma ensures_true {A} (m : M A) : ensures m (fun _ => True).
Proof. by intros t a t' _. Qed.


End PyFacts.

(** ** The in-page scripts *)

Module ExtractScriptFacts.
Import Dom ExtractScript Spec.







(** The containers of a page are the matches of one selector: the first
    one, in the order of the list, that matches anything. *)
Lemma find_containers_first d sels cs :
  find_containers d sels = Ok cs ->
  (cs = [] /\ Forall (fun sel => querySelectorAll d sel = Ok []) sels) \/
  (exists pre sel post,
      sels = pre ++ sel :: post /\
      Forall (fun sel' => querySelectorAll d sel' = Ok []) pre /\
      querySelectorAll d sel = Ok cs /\ cs <> []).
Proof.
  induction sels as [|sel sels IH]; simpl.
  - intros [= <-]. by left.
  - destruct (querySelectorAll d sel) as [[|c l]|] eqn:E; simpl; [| |done].
    + intros H. destruct (IH H) as [[-> Hall]|(pre & s' & post & -> & Hpre & Hs & Hne)].
      * left. split; [done|]. by constructor.
      * right. exists (sel :: pre), s', post. repeat split; auto.
    + intros [= <-]. right. exists [], sel, sels. repeat split; auto.
Qed.

End ExtractScriptFacts.

Module JobLinksScriptFacts.
Import Dom JobLinksScript Spec.

(** The guarded cascade returns the match of the first candidate that has
    one; candidates that throw or match nothing are passed over. *)
Lemma safeQuerySelector_Some c sels e :
  safeQuerySelector c sels = Some e <->
  exists pre sel post,
    sels = pre ++ sel :: post /\ Forall (fails c) pre /\
    querySelector c sel = Ok (Some e).
Proof.
  induction sels as [|x sels IH]; simpl.
  - split; [done|]. intros (pre & sel & post & H & _). by destruct pre.
  - split.
    + destruct (querySelector c x) as [[e'|]|] eqn:E.
      * intros [= ->]. by exists [], x, sels.
      * intros (pre & sel & post & -> & Hpre & Hsel)%IH.
        exists (x :: pre), sel, post. repeat split; auto.
        constructor; [|done]. unfold fails. by rewrite E.
      * intros (pre & sel & post & -> & Hpre & Hsel)%IH.
        exists (x :: pre), sel, post. repeat split; auto.
        constructor; [|done]. unfold fails. by rewrite E.
    + intros (pre & sel & post & Hl & Hpre & Hsel).
      destruct pre as [|y pre]; simpl in Hl; injection Hl as -> ->.
      * by rewrite Hsel.
      * apply Forall_cons in Hpre as [Hy Hpre]. unfold fails in Hy.
        destruct (querySelector c y) as [[?|]|]; [done| |];
          apply IH; by exists pre, sel, post.
Qed.



Lemma findJobElements_loop_app d sels elements :
  findJobElements_loop d sels elements
  = elements ++ List.concat (map (matches d) sels).
Proof.
  revert elements. induction sels as [|sel sels IH]; intros elements; simpl.
  - by rewrite app_nil_r.
  - unfold matches at 1.
    destruct (querySelectorAll d sel); rewrite IH; [by rewrite <- app_assoc|done].
Qed.

(** The containers of a page are the matches of every selector, one
    selector after the other. *)
Lemma findJobElements_all d sels :
  findJobElements d sels = List.concat (map (matches d) sels).
Proof. apply findJobElements_loop_app. Qed.


(** The link loop ends on the element of the first candidate that finds
    one with an [href]; when no candidate does, it ends without an
    [href]. *)
Lemma find_link_first c sels link :
  opt_has_href link = false ->
  (exists pre sel post e,
      sels = pre ++ sel :: post /\ Forall (no_link c) pre /\
      querySelector c sel = Ok (Some e) /\ has_href e = true /\
      find_link c sels link = Some e) \/
  (Forall (no_link c) sels /\ opt_has_href (find_link c sels link) = false).
Proof.
  revert link. induction sels as [|x sels IH]; intros link Hlink; simpl.
  - right. by split.
  - assert (Hstep : forall link',
      opt_has_href link' = false -> no_link c x ->
      (exists pre sel post e,
          x :: sels = pre ++ sel :: post /\ Forall (no_link c) pre /\
          querySelector c sel = Ok (Some e) /\ has_href e = true /\
          find_link c sels link' = Some e) \/
      (Forall (no_link c) (x :: sels) /\
       opt_has_href (find_link c sels link') = false)).
    { intros link' Hl Hx.
      destruct (IH link' Hl) as [(pre & s & post & e' & -> & Hpre & Hs & He' & Hr)|[Hall Hr]].
      - left. exists (x :: pre), s, post, e'. repeat split; auto.
      - right. split; [by constructor|done]. }
    destruct (querySelector c x) as [[e|]|] eqn:E; simpl.
    + destruct (has_href e) eqn:He.
      * left. exists [], x, sels, e. by repeat split.
      * apply Hstep; [done|]. unfold no_link. by rewrite E.
    + apply Hstep; [done|]. unfold no_link. by rewrite E.
    + apply Hstep; [done|]. unfold no_link. by rewrite E.
Qed.




(** What [process_container] does once the link loop has ended on [link]. *)
Lemma process_container_unfold s c :
  process_container s c =
  let link := find_link c (link_selectors s) None in
  let link :=
    if negb (opt_has_href link) && bool_decide (tagName (self c) = "A")
    then Some (self c) else link in
  match link with
  | Some l =>
      if has_href l then
        let title := text_or (safeQuerySelector c (title_selectors s)) (textContent l) in
        let location := text_or (safeQuerySelector c (location_selectors s)) "" in
        if Str.truthy (Str.trim title) then
          Some {| url := href_of l; title := Str.trim title;
                  location := Str.trim location; job_id := None |}
        else None
      else None
  | None => None
  end.
Proof. reflexivity. Qed.




(** A record is stored only with the [href] of its link as url, and with a
    trimmed, non-empty title. *)
Lemma process_container_Some s c r :
  process_container s c = Some r ->
  url r <> "" /\ well_formed r /\ job_id r = None.
Proof.
  rewrite process_container_unfold. cbv zeta.
  destruct (if negb _ && _ then _ else _) as [l|]; [|done].
  destruct (has_href l) eqn:Hl; [|done].
  destruct (Str.truthy (Str.trim _)) eqn:Ht; [|done].
  intros [= <-]. simpl.
  assert (Hu : href_of l <> "").
  { unfold has_href in Hl. unfold href_of. destruct (href l); simpl; [|done].
    by apply StrFacts.truthy_true. }
  repeat split; simpl; auto.
  - by apply StrFacts.truthy_true.
  - apply StrFacts.trim_idem.
Qed.

(** No link, no record: when no link candidate finds an [href] and the
    container is not itself an anchor with an [href], nothing is stored,
    whatever its title and location. *)
Lemma process_container_no_link s c :
  Forall (no_link c) (link_selectors s) ->
  ~ (tagName (self c) = "A" /\ has_href (self c) = true) ->
  process_container s c = None.
Proof.
  intros Hall Hself. rewrite process_container_unfold. cbv zeta.
  destruct (find_link_first c (link_selectors s) None eq_refl)
    as [(pre & sel & post & e & Hs & Hpre & Hq & He & _)|[_ Hno]].
  { rewrite Hs in Hall. apply Forall_app in Hall as [_ Hall].
    apply Forall_cons in Hall as [Hsel _]. unfold no_link in Hsel.
    rewrite Hq in Hsel. congruence. }
  rewrite Hno. simpl. case_bool_decide as Htag.
  - destruct (has_href (self c)) eqn:Hh; [|done]. by destruct Hself.
  - destruct (find_link c (link_selectors s) None) as [l|]; [|done].
    simpl in Hno. by rewrite Hno.
Qed.

Lemma collect_Forall (P : Job -> Prop) s cs jobs :
  (forall c r, process_container s c = Some r -> P r) ->
  Forall P jobs -> Forall P (collect s cs jobs).
Proof.
  intros HP. revert jobs. induction cs as [|c cs IH]; intros jobs Hjobs; simpl; [done|].
  destruct (process_container s c) as [r|] eqn:E; [|by apply IH].
  apply IH. unfold Set_add. case_decide; [done|].
  apply Forall_app. split; [done|]. repeat constructor. by eapply HP.
Qed.

Lemma collect_NoDup s cs jobs : NoDup jobs -> NoDup (collect s cs jobs).
Proof.
  revert jobs. induction cs as [|c cs IH]; intros jobs Hjobs; simpl; [done|].
  destruct (process_container s c) as [r|]; [|by apply IH].
  apply IH. unfold Set_add. case_decide as Hin; [done|].
  apply NoDup_app. split_and!; [done| |apply NoDup_singleton].
  intros y Hy Hy'. apply list_elem_of_singleton in Hy'. by subst.
Qed.

Lemma job_links_Forall (P : Job -> Prop) s d :
  (forall c r, process_container s c = Some r -> P r) ->
  Forall P (job_links s d).
Proof. intros HP. by apply collect_Forall. Qed.

End JobLinksScriptFacts.

(** ** utils/scraper.py *)

Module ScraperFacts.
Import Py Spec PyFacts Scraper.

Lemma find_content_returns W patterns : returns (find_content W patterns) (fun _ => True).
Proof.
  induction patterns as [|p ps IH]; simpl.
  - by apply returns_ret.
  - eapply returns_bind; [apply returns_attempt, ensures_true|].
    intros [[h|]|e] _; [by apply returns_ret|apply IH..].
Qed.

(** The readiness check never raises. *)
Lemma wait_for_page_load_returns W : returns (wait_for_page_load W) (fun _ => True).
Proof.
  apply returns_try_except; [apply ensures_true|].
  intros e. by apply returns_ret.
Qed.

(** First layer: no idle signal, not ready. *)
Lemma wait_for_page_load_no_idle W t e :
  on_wait_for_load_state W t = Raised e ->
  wait_for_page_load W t = (Returned false, t ++ [WaitForLoadState]).
Proof.
  intros H. unfold wait_for_page_load, try_except, bind, wait_for_load_state, perform.
  by rewrite H.
Qed.

Lemma find_content_none W patterns :
  no_container_ever_matches W ->
  forall t, exists t', find_content W patterns t = (Returned false, t').
Proof.
  intros Hno. induction patterns as [|p ps IH]; intros t; simpl.
  - by exists t.
  - unfold bind, attempt, wait_for_selector, perform.
    specialize (Hno t p).
    destruct (on_wait_for_selector W t p) as [[h|]|e]; [done|apply IH..].
Qed.

(** Second and third layer: the idle signal may fire, but no container
    shows up and the content has no keyword: not ready. *)
Lemma wait_for_page_load_no_content W :
  no_container_ever_matches W -> keyword_fallback_fails W ->
  forall t, exists t', wait_for_page_load W t = (Returned false, t').
Proof.
  intros Hno Hkw t.
  unfold wait_for_page_load, try_except, bind at 1, wait_for_load_state, perform.
  destruct (on_wait_for_load_state W t) as [[]|e]; [|by eexists].
  unfold bind at 1.
  destruct (find_content_none W container_patterns Hno (t ++ [WaitForLoadState]))
    as [t1 ->].
  unfold bind, content, perform. specialize (Hkw t1).
  destruct (on_content W t1) as [c|e]; [|by eexists].
  rewrite Hkw. by eexists.
Qed.

End ScraperFacts.

(** ** The shared extractor methods *)

Module ExtractorFacts.
Import Py Spec PyFacts Extractor.

(** [extract_job_links] never raises: it returns the records of its script,
    or the empty list. *)
Lemma extract_job_links_returns W s :
  returns (extract_job_links W s)
          (fun l => l = [] \/ exists d, l = JobLinksScript.job_links s d).
Proof.
  apply returns_try_except; [|intros e; apply returns_ret; by left].
  eapply ensures_bind; [apply ensures_true|]. intros _ _.
  eapply ensures_bind; [apply ensures_true|]. intros ready _.
  eapply ensures_bind; [apply ensures_true|]. intros [] _.
  - eapply ensures_bind with (P := fun l => exists d, l = JobLinksScript.job_links s d).
    + intros t l t'. unfold evaluate, bind, perform.
      destruct (on_evaluate W t) as [d|e]; [|done].
      intros [= <- _]. by exists d.
    + intros l Hl. apply ensures_ret. by right.
  - apply ensures_ret. by left.
Qed.

Lemma try_selectors_returns W sels : returns (try_selectors W sels) (fun _ => True).
Proof.
  induction sels as [|x sels IH]; simpl.
  - by apply returns_ret.
  - eapply returns_bind; [apply returns_attempt, ensures_true|].
    intros [[]|e] _; [by apply returns_ret|apply IH..].
Qed.

(** [try_next_page] never raises: whatever goes wrong with a control is
    swallowed and the next selector is tried. *)
Lemma try_next_page_returns W : returns (try_next_page W) (fun _ => True).
Proof. apply try_selectors_returns. Qed.


End ExtractorFacts.

(** ** The accumulator across pages *)

Section Accumulated.
Import Spec.
Context (page : list Job -> Prop).

Lemma accumulated_refl jobs : accumulated page jobs jobs.
Proof. by exists []. Qed.

Lemma accumulated_step jobs p l :
  page p -> accumulated page (add_new_jobs jobs p) l -> accumulated page jobs l.
Proof. intros Hp (ps & -> & Hps). exists (p :: ps). split; [done|by constructor]. Qed.


Lemma accumulated_NoDup jobs l : accumulated page jobs l -> NoDup jobs -> NoDup l.
Proof. intros (ps & -> & _). rewrite foldl_add_new_jobs. apply NoDup_add_new_jobs. Qed.


End Accumulated.

(** ** extractors/base_extractor.py *)

Module BaseExtractorFacts.
Import Py Spec PyFacts BaseExtractor.

Lemma base_evaluate_ensures {A} W (script : Dom.Document -> Dom.js A) :
  ensures (evaluate W script) (fun v => exists d, script d = Dom.Ok v).
Proof.
  intros t v t'. unfold evaluate, bind, perform.
  destruct (on_evaluate W t) as [d|e]; [|done].
  destruct (script d) as [v'|] eqn:E; [|done].
  intros [= <- _]. by exists d.
Qed.

Lemma base_pages_unfold W fuel max_pages current_page jobs :
  pages W fuel max_pages current_page jobs =
  if (current_page <=? max_pages)%Z then
    match fuel with
    | O => ret jobs
    | S fuel =>
        (wait_for_load_state W;;
         sleep 2;;
         let* page_jobs := evaluate W (ExtractScript.page_jobs selectors) in
         let jobs := add_new_jobs jobs page_jobs in
         if (current_page >=? max_pages)%Z then ret jobs
         else
           let* next_page_found := try_next_page W in
           if negb next_page_found then ret jobs
           else
             sleep 5;;
             pages W fuel max_pages (current_page + 1) jobs)%py
    end
  else ret jobs.
Proof. by destruct fuel. Qed.

(** Whenever the loop ends normally, its value is the accumulator it
    started from with the pages seen since folded in. *)
Lemma base_pages_accumulated W fuel max_pages current_page jobs :
  ensures (pages W fuel max_pages current_page jobs)
          (accumulated (page_of_extract selectors) jobs).
Proof.
  revert current_page jobs. induction fuel as [|fuel IH]; intros cp jobs;
    rewrite base_pages_unfold; destruct (cp <=? max_pages)%Z;
    try (apply ensures_ret, accumulated_refl).
  eapply ensures_bind; [apply ensures_true|]. intros _ _.
  eapply ensures_bind; [apply ensures_true|]. intros _ _.
  eapply ensures_bind; [apply base_evaluate_ensures|]. intros p Hp. cbv zeta.
  eapply ensures_weaken with (P := accumulated _ (add_new_jobs jobs p));
    [|intros l; by apply accumulated_step].
  destruct (cp >=? max_pages)%Z; [apply ensures_ret, accumulated_refl|].
  eapply ensures_bind; [apply ensures_true|]. intros next _.
  destruct (negb next); [apply ensures_ret, accumulated_refl|].
  eapply ensures_bind; [apply ensures_true|]. intros _ _. apply IH.
Qed.



Lemma base_run_accumulated W base_url max_pages :
  ensures (run W base_url max_pages) (accumulated (page_of_extract selectors) []).
Proof.
  unfold run.
  do 4 (eapply ensures_bind; [apply ensures_true|]; intros _ _).
  eapply ensures_bind; [apply base_pages_accumulated|]. intros l Hl.
  eapply ensures_bind; [apply ensures_true|]. intros _ _.
  by apply ensures_ret.
Qed.


End BaseExtractorFacts.

(** ** extractors/base2_extractor.py *)

Module Base2ExtractorFacts.
Import Py Spec PyFacts Base2Extractor.

Lemma base2_pages_unfold W fuel max_pages current_page all_jobs :
  pages W fuel max_pages current_page all_jobs =
  if (current_page <=? max_pages)%Z then
    match fuel with
    | O => ret all_jobs
    | S fuel =>
        (sleep 3;;
         let* jobs := extract_job_links W in
         let all_jobs := add_new_jobs all_jobs jobs in
         if (current_page >=? max_pages)%Z then ret all_jobs
         else
           let* next_page_found := try_next_page W in
           if negb next_page_found then ret all_jobs
           else
             sleep 5;;
             pages W fuel max_pages (current_page + 1) all_jobs)%py
    end
  else ret all_jobs.
Proof. by destruct fuel. Qed.

(** The loop never raises, and its value is the accumulator it started
    from with the pages seen since folded in. *)
Lemma base2_pages_returns W fuel max_pages current_page all_jobs :
  returns (pages W fuel max_pages current_page all_jobs)
          (accumulated (page_of_job_links selectors) all_jobs).
Proof.
  revert current_page all_jobs. induction fuel as [|fuel IH]; intros cp jobs;
    rewrite base2_pages_unfold; destruct (cp <=? max_pages)%Z;
    try (apply returns_ret, accumulated_refl).
  eapply returns_bind; [apply returns_perform_sleep|]. intros _ _.
  eapply returns_bind; [apply ExtractorFacts.extract_job_links_returns|].
  intros p Hp. cbv zeta.
  eapply returns_weaken with (P := accumulated _ (add_new_jobs jobs p));
    [|intros l; by apply accumulated_step].
  destruct (cp >=? max_pages)%Z; [apply returns_ret, accumulated_refl|].
  eapply returns_bind; [apply ExtractorFacts.try_next_page_returns|]. intros next _.
  destruct (negb next); [apply returns_ret, accumulated_refl|].
  eapply returns_bind; [apply returns_perform_sleep|]. intros _ _. apply IH.
Qed.



Lemma base2_run_accumulated W base_url max_pages :
  ensures (run W base_url max_pages) (accumulated (page_of_job_links selectors) []).
Proof.
  unfold run.
  eapply ensures_bind; [apply ensures_true|]; intros _ _.
  eapply ensures_bind; [apply returns_ensures, base2_pages_returns|]. intros l Hl.
  eapply ensures_bind; [apply ensures_true|]. intros _ _.
  by apply ensures_ret.
Qed.


End Base2ExtractorFacts.

(** ** Whole runs *)

Module RunFacts.
Import Py Spec PyFacts.

Lemma try_except_bind {A B} (m : M A) (k : A -> M B) h t a t1 :
  m t = (Returned a, t1) ->
  try_except (bind m k) h t = try_except (k a) h t1.
Proof. intros E. unfold try_except, bind. by rewrite E. Qed.

Lemma bind_returned {A B} (m : M A) (k : A -> M B) t a t1 :
  m t = (Returned a, t1) -> bind m k t = k a t1.
Proof. intros E. unfold bind. by rewrite E. Qed.


Lemma bind_inv {A B} (m : M A) (k : A -> M B) t b t' :
  bind m k t = (Returned b, t') ->
  exists a t1, m t = (Returned a, t1) /\ k a t1 = (Returned b, t').
Proof.
  unfold bind. destruct (m t) as [[a|e] t1]; [|done]. intros H. by exists a, t1.
Qed.

Lemma attempt_returned {A} (m : M A) t r t1 :
  m t = (r, t1) -> attempt m t = (Returned r, t1).
Proof. intros E. unfold attempt. by rewrite E. Qed.


Lemma on_error_ensures W e : ensures (Extractor.on_error W e) (fun l => l = []).
Proof.
  unfold Extractor.on_error.
  eapply ensures_bind; [apply ensures_true|]. intros _ _.
  eapply ensures_bind; [apply ensures_true|]. intros _ _.
  by apply ensures_ret.
Qed.

(** Whatever [extract] returns is an accumulation of pages. *)
Lemma base_extract_ensures W base_url max_pages :
  ensures (BaseExtractor.extract W base_url max_pages)
          (accumulated (page_of_extract BaseExtractor.selectors) []).
Proof.
  unfold BaseExtractor.extract.
  eapply ensures_bind; [apply ensures_true|]. intros [[]|e] _.
  - apply ensures_try_except; [apply BaseExtractorFacts.base_run_accumulated|].
    intros e. eapply ensures_weaken; [apply on_error_ensures|].
    intros l ->. apply accumulated_refl.
  - apply ensures_ret, accumulated_refl.
Qed.

Lemma base2_extract_ensures W base_url max_pages :
  ensures (Base2Extractor.extract W base_url max_pages)
          (accumulated (page_of_job_links Base2Extractor.selectors) []).
Proof.
  unfold Base2Extractor.extract.
  eapply ensures_bind; [apply ensures_true|]. intros [[]|e] _.
  - apply ensures_try_except; [apply Base2ExtractorFacts.base2_run_accumulated|].
    intros e. eapply ensures_weaken; [apply on_error_ensures|].
    intros l ->. apply accumulated_refl.
  - apply ensures_ret, accumulated_refl.
Qed.

(** [extract] is its set-up followed by the rest of the run from page 1. *)
Lemma base_extract_from_page_1 W base_url max_pages t t1 :
  (new_page W;;
   goto W base_url;;
   wait_for_load_state W;;
   sleep 2;;
   BaseExtractor.await_containers W (containers BaseExtractor.selectors))%py t
  = (Returned tt, t1) ->
  BaseExtractor.extract W base_url max_pages t
  = rest_of_run W (BaseExtractor.pages W (Z.to_nat max_pages) max_pages 1 []) t1.
Proof.
  intros H.
  apply bind_inv in H as ([] & t0 & E0 & H).
  apply bind_inv in H as ([] & t2 & E2 & H).
  apply bind_inv in H as ([] & t3 & E3 & H).
  apply bind_inv in H as ([] & t4 & E4 & H).
  unfold BaseExtractor.extract.
  rewrite (bind_returned _ _ _ _ _ (attempt_returned _ _ _ _ E0)).
  unfold BaseExtractor.run, rest_of_run.
  rewrite (try_except_bind _ _ _ _ _ _ E2), (try_except_bind _ _ _ _ _ _ E3),
    (try_except_bind _ _ _ _ _ _ E4), (try_except_bind _ _ _ _ _ _ H).
  reflexivity.
Qed.

Lemma base2_extract_from_page_1 W base_url max_pages t t1 :
  (new_context W;;
   new_page W;;
   Base2Extractor.load_with_retries W base_url (seq 0 Base2Extractor.max_retries))%py t
  = (Returned tt, t1) ->
  Base2Extractor.extract W base_url max_pages t
  = rest_of_run W (Base2Extractor.pages W (Z.to_nat max_pages) max_pages 1 []) t1.
Proof.
  intros H.
  apply bind_inv in H as ([] & t0 & E0 & H).
  apply bind_inv in H as ([] & t2 & E2 & H).
  unfold Base2Extractor.extract.
  assert (E : (new_context W;; new_page W)%py t = (Returned tt, t2))
    by (by rewrite (bind_returned _ _ _ _ _ E0)).
  rewrite (bind_returned _ _ _ _ _ (attempt_returned _ _ _ _ E)).
  unfold Base2Extractor.run, rest_of_run.
  rewrite (try_except_bind _ _ _ _ _ _ H).
  reflexivity.
Qed.


(** The readiness check of a page that never becomes ready, seen from
    [extract_job_links]: one reload, a second check, and the empty list. *)
Lemma extract_job_links_not_ready W s :
  (forall t, exists t', Scraper.wait_for_page_load W t = (Returned false, t')) ->
  forall t, exists t', Extractor.extract_job_links W s t = (Returned [], t').
Proof.
  intros Hw t. unfold Extractor.extract_job_links, try_except.
  unfold bind at 1. unfold sleep at 1, perform at 1.
  unfold bind at 1. destruct (Hw (t ++ [Sleep 2])) as [t1 ->]. cbn [negb].
  unfold bind at 1 2. unfold reload, perform at 1.
  destruct (on_reload W t1) as [[]|e]; [|by eexists].
  unfold bind at 1. unfold sleep, perform at 1.
  unfold bind at 1. destruct (Hw ((t1 ++ [Reload]) ++ [Sleep 5])) as [t2 ->].
  by eexists.
Qed.

Lemma extract_job_links_no_idle W s t :
  idle_never_fires W ->
  Extractor.extract_job_links W s t
  = (Returned [],
     t ++ [Sleep 2; WaitForLoadState; Reload] ++
       match on_reload W (t ++ [Sleep 2; WaitForLoadState]) with
       | Returned _ => [Sleep 5; WaitForLoadState]
       | Raised _ => []
       end).
Proof.
  intros Hidle. unfold Extractor.extract_job_links, try_except.
  unfold bind at 1. unfold sleep at 1, perform at 1.
  unfold bind at 1.
  rewrite (ScraperFacts.wait_for_page_load_no_idle W _ _ (Hidle _)). cbn [negb].
  unfold bind at 1 2. unfold reload, perform at 1.
  replace ((t ++ [Sleep 2]) ++ [WaitForLoadState])
    with (t ++ [Sleep 2; WaitForLoadState]) by (by rewrite <- app_assoc).
  destruct (on_reload W (t ++ [Sleep 2; WaitForLoadState])) as [[]|e].
  - unfold bind at 1. unfold sleep, perform at 1.
    unfold bind at 1.
    rewrite (ScraperFacts.wait_for_page_load_no_idle W _ _ (Hidle _)).
    unfold bind, ret. f_equal. by rewrite <- !app_assoc.
  - unfold ret. f_equal. by rewrite <- !app_assoc.
Qed.





End RunFacts.

(** ** Histories *)

Module TraceFacts.
Import Py Traces.

Lemma count_app p t1 t2 : count p (t1 ++ t2) = (count p t1 + count p t2)%nat.
Proof. induction t1 as [|c t1 IH]; simpl; [done|]. rewrite IH. lia. Qed.

Lemma count_none p t : Forall (fun c => p c = false) t -> count p t = 0%nat.
Proof. induction 1 as [|c t Hc _ IH]; simpl; [done|]. by rewrite Hc, IH. Qed.

Lemma count_zero p t : count p t = 0%nat -> Forall (fun c => p c = false) t.
Proof.
  induction t as [|c t IH]; simpl; [constructor|].
  destruct (p c) eqn:E; [lia|]. intros H. constructor; [done|]. apply IH. lia.
Qed.

Lemma appends_weaken {A} (m : M A) (Q Q' : trace -> Prop) :
  appends m Q -> (forall new, Q new -> Q' new) -> appends m Q'.
Proof. intros H HQ t r t' E. destruct (H t r t' E) as (new & -> & Hn). eauto. Qed.

Lemma appends_ret {A} (a : A) (Q : trace -> Prop) : Q [] -> appends (ret a) Q.
Proof. intros HQ t r t' [= <- <-]. exists []. by rewrite app_nil_r. Qed.

Lemma appends_raise {A} e (Q : trace -> Prop) : Q [] -> appends (@raise A e) Q.
Proof. intros HQ t r t' [= <- <-]. exists []. by rewrite app_nil_r. Qed.

Lemma appends_perform {A} c (f : trace -> outcome A) (Q : trace -> Prop) :
  Q [c] -> appends (perform c f) Q.
Proof. intros HQ t r t' [= <- <-]. by exists [c]. Qed.

Lemma appends_bind {A B} (m : M A) (k : A -> M B) (Q1 Q2 Q : trace -> Prop) :
  appends m Q1 -> (forall a, appends (k a) Q2) ->
  (forall n1, Q1 n1 -> Q n1) ->
  (forall n1 n2, Q1 n1 -> Q2 n2 -> Q (n1 ++ n2)) ->
  appends (bind m k) Q.
Proof.
  intros Hm Hk H1 H12 t r t'. unfold bind.
  destruct (m t) as [[a|e] t1] eqn:E; destruct (Hm _ _ _ E) as (n1 & -> & Hn1).
  - intros Ek. destruct (Hk a _ _ _ Ek) as (n2 & -> & Hn2).
    exists (n1 ++ n2). split; [by rewrite app_assoc|auto].
  - intros [= <- <-]. eauto.
Qed.

Lemma appends_attempt {A} (m : M A) Q : appends m Q -> appends (attempt m) Q.
Proof.
  intros Hm t r t'. unfold attempt. destruct (m t) as [r1 t1] eqn:E.
  intros [= <- <-]. eauto.
Qed.

Lemma appends_try_except {A} (m : M A) h (Q1 Q2 Q : trace -> Prop) :
  appends m Q1 -> (forall e, appends (h e) Q2) ->
  (forall n1, Q1 n1 -> Q n1) ->
  (forall n1 n2, Q1 n1 -> Q2 n2 -> Q (n1 ++ n2)) ->
  appends (try_except m h) Q.
Proof.
  intros Hm Hh H1 H12 t r t'. unfold try_except.
  destruct (m t) as [[a|e] t1] eqn:E; destruct (Hm _ _ _ E) as (n1 & -> & Hn1).
  - intros [= <- <-]. eauto.
  - intros Eh. destruct (Hh e _ _ _ Eh) as (n2 & -> & Hn2).
    exists (n1 ++ n2). split; [by rewrite app_assoc|auto].
Qed.

(** *** Calls of one kind only *)

Lemma only_ret {A} p (a : A) : only p (ret a).
Proof. apply appends_ret. constructor. Qed.

Lemma only_raise {A} p e : only p (@raise A e).
Proof. apply appends_raise. constructor. Qed.

Lemma only_perform {A} p c (f : trace -> outcome A) :
  p c = true -> only p (perform c f).
Proof. intros H. apply appends_perform. by repeat constructor. Qed.

Lemma only_bind {A B} p (m : M A) (k : A -> M B) :
  only p m -> (forall a, only p (k a)) -> only p (bind m k).
Proof.
  intros Hm Hk. eapply appends_bind; [exact Hm|exact Hk|auto|].
  intros n1 n2 H1 H2. by apply Forall_app.
Qed.

Lemma only_attempt {A} p (m : M A) : only p m -> only p (attempt m).
Proof. apply appends_attempt. Qed.

Lemma only_try_except {A} p (m : M A) h :
  only p m -> (forall e, only p (h e)) -> only p (try_except m h).
Proof.
  intros Hm Hh. eapply appends_try_except; [exact Hm|exact Hh|auto|].
  intros n1 n2 H1 H2. by apply Forall_app.
Qed.

Lemma only_weaken {A} (p q : call -> bool) (m : M A) :
  (forall c, p c = true -> q c = true) -> only p m -> only q m.
Proof.
  intros Hpq Hm. eapply appends_weaken; [exact Hm|].
  intros new Hnew. eapply Forall_impl; [exact Hnew|exact Hpq].
Qed.

(** *** Calls of one kind counted *)

Lemma at_most_ret {A} p n (a : A) : at_most p n (ret a).
Proof. apply appends_ret. simpl. lia. Qed.

Lemma at_most_raise {A} p n e : at_most p n (@raise A e).
Proof. apply appends_raise. simpl. lia. Qed.

Lemma at_most_perform {A} (p : call -> bool) c (f : trace -> outcome A) n :
  ((if p c then 1 else 0) <= n)%nat -> at_most p n (perform c f).
Proof. intros H. apply appends_perform. simpl. lia. Qed.

Lemma at_most_bind {A B} p n1 n2 n (m : M A) (k : A -> M B) :
  at_most p n1 m -> (forall a, at_most p n2 (k a)) -> (n1 + n2 <= n)%nat ->
  at_most p n (bind m k).
Proof.
  intros Hm Hk Hn. eapply appends_bind; [exact Hm|exact Hk|..]; cbv beta.
  - intros new H. lia.
  - intros new1 new2 H1 H2. rewrite count_app. lia.
Qed.

Lemma at_most_attempt {A} p n (m : M A) : at_most p n m -> at_most p n (attempt m).
Proof. apply appends_attempt. Qed.

Lemma at_most_try_except {A} p n1 n2 n (m : M A) h :
  at_most p n1 m -> (forall e, at_most p n2 (h e)) -> (n1 + n2 <= n)%nat ->
  at_most p n (try_except m h).
Proof.
  intros Hm Hh Hn. eapply appends_try_except; [exact Hm|exact Hh|..]; cbv beta.
  - intros new H. lia.
  - intros new1 new2 H1 H2. rewrite count_app. lia.
Qed.

Lemma at_most_weaken {A} p n n' (m : M A) :
  at_most p n m -> (n <= n')%nat -> at_most p n' m.
Proof. intros Hm Hn. eapply appends_weaken; [exact Hm|]. cbv beta. intros. lia. Qed.

(** Calls that [p] rejects altogether are not counted. *)
Lemma only_at_most {A} (p q : call -> bool) (m : M A) :
  (forall c, q c = true -> p c = false) -> only q m -> at_most p 0 m.
Proof.
  intros Hqp Hm. eapply appends_weaken; [exact Hm|]. cbv beta.
  intros new Hnew. rewrite count_none; [done|].
  eapply Forall_impl; [exact Hnew|exact Hqp].
Qed.

End TraceFacts.

(** ** The calls each function makes *)

Module CallFacts.
Import Py Traces TraceFacts.

Ltac only_auto :=
  repeat first
    [ apply only_ret
    | apply only_raise
    | apply only_perform; reflexivity
    | apply only_attempt
    | apply only_bind; [|intros ?]
    | apply only_try_except; [|intros ?]
    | match goal with
      | |- only _ (match ?x with _ => _ end) => destruct x
      end ].

Ltac unfold_calls :=
  unfold new_context, new_page, goto, wait_for_load_state, wait_for_selector,
    wait_for_selector_list, query_selector_all, query_selector, content, reload,
    is_visible, get_attribute, click, screenshot, close, sleep, evaluate.

Lemma only_find_content W patterns : only is_passive (Scraper.find_content W patterns).
Proof.
  induction patterns as [|p ps IH]; simpl; unfold_calls; only_auto; exact IH.
Qed.

(** The readiness check waits and reads; it makes no other call. *)
Lemma only_wait_for_page_load W : only is_passive (Scraper.wait_for_page_load W).
Proof.
  unfold Scraper.wait_for_page_load. unfold_calls.
  apply only_try_except; [|intros _; apply only_ret].
  apply only_bind; [by apply only_perform|]. intros _.
  apply only_bind; [apply only_find_content|]. intros [].
  - apply only_ret.
  - apply only_bind; [by apply only_perform|]. intros c. apply only_ret.
Qed.

Lemma passive_pass_call c : is_passive c = true -> is_pass_call c = true.
Proof. by destruct c. Qed.

Lemma only_extract_job_links W s : only is_pass_call (Extractor.extract_job_links W s).
Proof.
  unfold Extractor.extract_job_links. unfold_calls. only_auto;
    apply (only_weaken _ _ _ passive_pass_call), only_wait_for_page_load.
Qed.

Lemma only_next_page_step W selector :
  only is_next_page_call (Extractor.next_page_step W selector).
Proof. unfold Extractor.next_page_step. unfold_calls. only_auto. Qed.

Lemma only_try_selectors W sels : only is_next_page_call (Extractor.try_selectors W sels).
Proof.
  induction sels as [|x sels IH]; simpl; only_auto;
    first [exact IH | apply only_next_page_step].
Qed.

Lemma only_try_next_page W : only is_next_page_call (Extractor.try_next_page W).
Proof. apply only_try_selectors. Qed.

Lemma pass_loop_call c : is_pass_call c = true -> is_loop_call c = true.
Proof. unfold is_loop_call. by intros ->. Qed.

Lemma next_page_loop_call c : is_next_page_call c = true -> is_loop_call c = true.
Proof. unfold is_loop_call. intros ->. by destruct (is_pass_call c). Qed.

Lemma only_base_pages W fuel max_pages current_page jobs :
  only is_loop_call (BaseExtractor.pages W fuel max_pages current_page jobs).
Proof.
  revert current_page jobs. induction fuel as [|fuel IH]; intros cp jobs;
    rewrite BaseExtractorFacts.base_pages_unfold; destruct (cp <=? max_pages)%Z;
    try apply only_ret.
  apply only_bind; [by apply only_perform|]. intros _.
  apply only_bind; [by apply only_perform|]. intros _.
  apply only_bind.
  { unfold evaluate. apply only_bind; [by apply only_perform|]. intros d.
    destruct (ExtractScript.page_jobs _ d); [apply only_ret|apply only_raise]. }
  intros p. cbv zeta. destruct (cp >=? max_pages)%Z; [apply only_ret|].
  apply only_bind;
    [apply (only_weaken _ _ _ next_page_loop_call), only_try_next_page|].
  intros next. destruct (negb next); [apply only_ret|].
  apply only_bind; [by apply only_perform|]. intros _. apply IH.
Qed.

Lemma only_base2_pages W fuel max_pages current_page jobs :
  only is_loop_call (Base2Extractor.pages W fuel max_pages current_page jobs).
Proof.
  revert current_page jobs. induction fuel as [|fuel IH]; intros cp jobs;
    rewrite Base2ExtractorFacts.base2_pages_unfold; destruct (cp <=? max_pages)%Z;
    try apply only_ret.
  apply only_bind; [by apply only_perform|]. intros _.
  apply only_bind;
    [apply (only_weaken _ _ _ pass_loop_call), only_extract_job_links|].
  intros p. cbv zeta. destruct (cp >=? max_pages)%Z; [apply only_ret|].
  apply only_bind;
    [apply (only_weaken _ _ _ next_page_loop_call), only_try_next_page|].
  intros next. destruct (negb next); [apply only_ret|].
  apply only_bind; [by apply only_perform|]. intros _. apply IH.
Qed.

(** On its last allowed page a loop makes the calls of one pass and stops. *)
Lemma only_base_pages_last W fuel max_pages current_page jobs :
  (max_pages <= current_page)%Z ->
  only is_pass_call (BaseExtractor.pages W fuel max_pages current_page jobs).
Proof.
  intros Hle. rewrite BaseExtractorFacts.base_pages_unfold.
  destruct (current_page <=? max_pages)%Z; [|apply only_ret].
  destruct fuel; [apply only_ret|].
  destruct (Z.geb_spec current_page max_pages); [|lia].
  apply only_bind; [by apply only_perform|]. intros _.
  apply only_bind; [by apply only_perform|]. intros _.
  apply only_bind; [|intros p; apply only_ret].
  unfold evaluate. apply only_bind; [by apply only_perform|]. intros d.
  destruct (ExtractScript.page_jobs _ d); [apply only_ret|apply only_raise].
Qed.

Lemma only_base2_pages_last W fuel max_pages current_page jobs :
  (max_pages <= current_page)%Z ->
  only is_pass_call (Base2Extractor.pages W fuel max_pages current_page jobs).
Proof.
  intros Hle. rewrite Base2ExtractorFacts.base2_pages_unfold.
  destruct (current_page <=? max_pages)%Z; [|apply only_ret].
  destruct fuel; [apply only_ret|].
  destruct (Z.geb_spec current_page max_pages); [|lia].
  apply only_bind; [by apply only_perform|]. intros _.
  apply only_bind; [apply only_extract_job_links|]. intros p. apply only_ret.
Qed.

Lemma only_await_containers (p : call -> bool) W sels :
  (forall s, p (WaitForSelector s) = true) ->
  (forall s, p (QuerySelectorAll s) = true) ->
  only p (BaseExtractor.await_containers W sels).
Proof.
  intros H1 H2. induction sels as [|x sels IH]; simpl; unfold_calls.
  - apply only_ret.
  - apply only_bind.
    + apply only_attempt, only_bind; [|intros ?]; apply only_perform; auto.
    + intros [[|h l]|e]; first [exact IH | apply only_ret].
Qed.

Lemma only_load_with_retries (p : call -> bool) W base_url attempts :
  (forall u, p (Goto u) = true) -> (forall l, p (WaitForSelectorList l) = true) ->
  p WaitForLoadState = true -> (forall n, p (Sleep n) = true) ->
  only p (Base2Extractor.load_with_retries W base_url attempts).
Proof.
  intros H1 H2 H3 H4. induction attempts as [|a rest IH]; simpl.
  - apply only_ret.
  - apply only_bind.
    + apply only_attempt. unfold Base2Extractor.load. unfold_calls.
      apply only_bind; [by apply only_perform|]. intros _.
      apply only_try_except.
      * apply only_bind; [by apply only_perform|]. intros _. apply only_ret.
      * intros _. by apply only_perform.
    + intros [[]|e]; [apply only_ret|].
      match goal with |- only _ (if ?b then _ else _) => destruct b end;
        [apply only_raise|].
      apply only_bind; [by apply only_perform|]. intros _. exact IH.
Qed.

End CallFacts.

(** ** How often a function makes a call *)

Module CountFacts.
Import Py Traces TraceFacts CallFacts.

Ltac none_auto tac :=
  repeat first
    [ apply at_most_ret
    | apply at_most_raise
    | apply at_most_perform; simpl; lia
    | apply at_most_attempt
    | tac
    | eapply (at_most_bind _ 0 0); [|intros ?|lia]
    | eapply (at_most_try_except _ 0 0); [|intros ?|lia]
    | match goal with
      | |- at_most _ _ (match ?x with _ => _ end) => destruct x
      end ].

Lemma passive_not_evaluate c : is_passive c = true -> is_evaluate c = false.
Proof. by destruct c. Qed.

Lemma passive_not_reload c : is_passive c = true -> is_reload c = false.
Proof. by destruct c. Qed.

Lemma next_page_not_evaluate c : is_next_page_call c = true -> is_evaluate c = false.
Proof. by destruct c. Qed.

Lemma no_evaluate_wait_for_page_load W :
  at_most is_evaluate 0 (Scraper.wait_for_page_load W).
Proof. eapply only_at_most; [apply passive_not_evaluate|apply only_wait_for_page_load]. Qed.

Lemma no_reload_wait_for_page_load W :
  at_most is_reload 0 (Scraper.wait_for_page_load W).
Proof. eapply only_at_most; [apply passive_not_reload|apply only_wait_for_page_load]. Qed.

Lemma no_evaluate_try_next_page W : at_most is_evaluate 0 (Extractor.try_next_page W).
Proof. eapply only_at_most; [apply next_page_not_evaluate|apply only_try_next_page]. Qed.

(** One pass evaluates its script at most once. *)
Lemma one_evaluate_extract_job_links W s :
  at_most is_evaluate 1 (Extractor.extract_job_links W s).
Proof.
  unfold Extractor.extract_job_links. unfold_calls.
  eapply (at_most_try_except _ 1 0); [|intros ?; apply at_most_ret|lia].
  eapply (at_most_bind _ 0 1); [apply at_most_perform; simpl; lia|intros _|lia].
  eapply (at_most_bind _ 0 1); [apply no_evaluate_wait_for_page_load|intros ready|lia].
  eapply (at_most_bind _ 0 1); [|intros go_on|lia].
  - destruct (negb ready); [|apply at_most_ret].
    none_auto ltac:(apply no_evaluate_wait_for_page_load).
  - destruct go_on; [|apply at_most_ret].
    eapply (at_most_bind _ 1 0); [|intros ?; apply at_most_ret|lia].
    eapply (at_most_bind _ 1 0); [apply at_most_perform; simpl; lia| |lia].
    intros d. apply at_most_ret.
Qed.

(** One pass reloads the page at most once. *)
Lemma one_reload_extract_job_links W s :
  at_most is_reload 1 (Extractor.extract_job_links W s).
Proof.
  unfold Extractor.extract_job_links. unfold_calls.
  eapply (at_most_try_except _ 1 0); [|intros ?; apply at_most_ret|lia].
  eapply (at_most_bind _ 0 1); [apply at_most_perform; simpl; lia|intros _|lia].
  eapply (at_most_bind _ 0 1); [apply no_reload_wait_for_page_load|intros ready|lia].
  eapply (at_most_bind _ 1 0); [|intros go_on|lia].
  - destruct (negb ready); [|apply at_most_ret].
    eapply (at_most_bind _ 1 0); [apply at_most_perform; simpl; lia|intros _|lia].
    none_auto ltac:(apply no_reload_wait_for_page_load).
  - destruct go_on; [|apply at_most_ret].
    none_auto fail.
Qed.

(** A page loop evaluates a script at most once per iteration. *)
Lemma evaluate_base_pages W fuel max_pages current_page jobs :
  at_most is_evaluate fuel (BaseExtractor.pages W fuel max_pages current_page jobs).
Proof.
  revert current_page jobs. induction fuel as [|fuel IH]; intros cp jobs;
    rewrite BaseExtractorFacts.base_pages_unfold; destruct (cp <=? max_pages)%Z;
    try apply at_most_ret.
  unfold_calls.
  eapply (at_most_bind _ 0 (S fuel)); [apply at_most_perform; simpl; lia|intros _|lia].
  eapply (at_most_bind _ 0 (S fuel)); [apply at_most_perform; simpl; lia|intros _|lia].
  eapply (at_most_bind _ 1 fuel); [|intros p|lia].
  - eapply (at_most_bind _ 1 0); [apply at_most_perform; simpl; lia| |lia].
    intros d. destruct (ExtractScript.page_jobs _ d); [apply at_most_ret|apply at_most_raise].
  - cbv zeta. destruct (cp >=? max_pages)%Z; [apply at_most_ret|].
    eapply (at_most_bind _ 0 fuel); [apply no_evaluate_try_next_page|intros next|lia].
    destruct (negb next); [apply at_most_ret|].
    eapply (at_most_bind _ 0 fuel); [apply at_most_perform; simpl; lia|intros _|lia].
    apply IH.
Qed.

Lemma evaluate_base2_pages W fuel max_pages current_page jobs :
  at_most is_evaluate fuel (Base2Extractor.pages W fuel max_pages current_page jobs).
Proof.
  revert current_page jobs. induction fuel as [|fuel IH]; intros cp jobs;
    rewrite Base2ExtractorFacts.base2_pages_unfold; destruct (cp <=? max_pages)%Z;
    try apply at_most_ret.
  unfold_calls.
  eapply (at_most_bind _ 0 (S fuel)); [apply at_most_perform; simpl; lia|intros _|lia].
  eapply (at_most_bind _ 1 fuel); [apply one_evaluate_extract_job_links|intros p|lia].
  cbv zeta. destruct (cp >=? max_pages)%Z; [apply at_most_ret|].
  eapply (at_most_bind _ 0 fuel); [apply no_evaluate_try_next_page|intros next|lia].
  destruct (negb next); [apply at_most_ret|].
  eapply (at_most_bind _ 0 fuel); [apply at_most_perform; simpl; lia|intros _|lia].
  apply IH.
Qed.

Lemma no_evaluate_on_error W e : at_most is_evaluate 0 (Extractor.on_error W e).
Proof. unfold Extractor.on_error. unfold_calls. none_auto fail. Qed.

Lemma evaluate_base_extract W base_url max_pages :
  at_most is_evaluate (Z.to_nat max_pages) (BaseExtractor.extract W base_url max_pages).
Proof.
  unfold BaseExtractor.extract.
  eapply (at_most_bind _ 0 (Z.to_nat max_pages)); [|intros page|lia].
  { unfold_calls. none_auto fail. }
  destruct page as [[]|e]; [|apply at_most_ret].
  eapply (at_most_try_except _ (Z.to_nat max_pages) 0);
    [|intros e; apply no_evaluate_on_error|lia].
  unfold BaseExtractor.run.
  eapply (at_most_bind _ 0 (Z.to_nat max_pages)); [unfold_calls; none_auto fail|intros _|lia].
  eapply (at_most_bind _ 0 (Z.to_nat max_pages)); [unfold_calls; none_auto fail|intros _|lia].
  eapply (at_most_bind _ 0 (Z.to_nat max_pages)); [unfold_calls; none_auto fail|intros _|lia].
  eapply (at_most_bind _ 0 (Z.to_nat max_pages)); [|intros _|lia].
  { eapply only_at_most with (q := fun c => negb (is_evaluate c)).
    - intros c. by destruct (is_evaluate c).
    - by apply only_await_containers. }
  eapply (at_most_bind _ (Z.to_nat max_pages) 0); [apply evaluate_base_pages|intros l|lia].
  unfold_calls. none_auto fail.
Qed.

Lemma evaluate_base2_extract W base_url max_pages :
  at_most is_evaluate (Z.to_nat max_pages) (Base2Extractor.extract W base_url max_pages).
Proof.
  unfold Base2Extractor.extract.
  eapply (at_most_bind _ 0 (Z.to_nat max_pages)); [|intros page|lia].
  { unfold_calls. none_auto fail. }
  destruct page as [[]|e]; [|apply at_most_ret].
  eapply (at_most_try_except _ (Z.to_nat max_pages) 0);
    [|intros e; apply no_evaluate_on_error|lia].
  unfold Base2Extractor.run.
  eapply (at_most_bind _ 0 (Z.to_nat max_pages)); [|intros _|lia].
  { eapply only_at_most with (q := fun c => negb (is_evaluate c)).
    - intros c. by destruct (is_evaluate c).
    - by apply only_load_with_retries. }
  eapply (at_most_bind _ (Z.to_nat max_pages) 0); [apply evaluate_base2_pages|intros l|lia].
  unfold_calls. none_auto fail.
Qed.

End CountFacts.

(** ** More about runs *)

Module MoreRunFacts.
Import Py Spec PyFacts Traces TraceFacts CallFacts RunFacts.

Lemma perform_eq {A} c (f : trace -> outcome A) t :
  perform c f t = (f t, t ++ [c]).
Proof. reflexivity. Qed.

(** The handler ends on [close], whether [close] returns or not. *)
Lemma on_error_trace W e t r t' :
  Extractor.on_error W e t = (r, t') -> t' = (t ++ [Screenshot]) ++ [Close].
Proof.
  unfold Extractor.on_error, bind, attempt, screenshot, close, perform, ret.
  destruct (on_close W _); by intros [= _ <-].
Qed.

Lemma close_ret_trace {A} W (a : A) t r t' :
  (close W;; ret a)%py t = (r, t') -> t' = t ++ [Close].
Proof.
  unfold bind, close, perform, ret. destruct (on_close W t); by intros [= _ <-].
Qed.

Lemma base_run_trace W base_url max_pages t l t' :
  BaseExtractor.run W base_url max_pages t = (Returned l, t') ->
  exists t1, t' = t1 ++ [Close].
Proof.
  unfold BaseExtractor.run. intros H.
  do 5 (apply bind_inv in H as (? & ? & _ & H)).
  apply close_ret_trace in H. eauto.
Qed.

Lemma base2_run_trace W base_url max_pages t l t' :
  Base2Extractor.run W base_url max_pages t = (Returned l, t') ->
  exists t1, t' = t1 ++ [Close].
Proof.
  unfold Base2Extractor.run. intros H.
  do 2 (apply bind_inv in H as (? & ? & _ & H)).
  apply close_ret_trace in H. eauto.
Qed.

Lemma try_except_on_error_trace W (run : M (list Job)) t r t' :
  (forall l t1, run t = (Returned l, t1) -> exists t2, t1 = t2 ++ [Close]) ->
  try_except run (Extractor.on_error W) t = (r, t') ->
  exists t1, t' = t1 ++ [Close].
Proof.
  intros Hrun. unfold try_except. destruct (run t) as [[l|e] t1] eqn:E.
  - intros [= <- <-]. by eapply Hrun.
  - intros H. apply on_error_trace in H. eauto.
Qed.

Lemma loop_no_screenshot c : is_loop_call c = true -> no_screenshot c = true.
Proof. by destruct c. Qed.

Lemma pass_no_pagination c : is_pass_call c = true -> no_pagination c = true.
Proof. by destruct c. Qed.

Lemma only_base_run_no_screenshot W base_url max_pages :
  only no_screenshot (BaseExtractor.run W base_url max_pages).
Proof.
  unfold BaseExtractor.run. unfold_calls.
  apply only_bind; [by apply only_perform|]. intros _.
  apply only_bind; [by apply only_perform|]. intros _.
  apply only_bind; [by apply only_perform|]. intros _.
  apply only_bind; [by apply only_await_containers|]. intros _.
  apply only_bind;
    [apply (only_weaken _ _ _ loop_no_screenshot), only_base_pages|]. intros l.
  apply only_bind; [by apply only_perform|]. intros _. apply only_ret.
Qed.

Lemma only_base2_run_no_screenshot W base_url max_pages :
  only no_screenshot (Base2Extractor.run W base_url max_pages).
Proof.
  unfold Base2Extractor.run. unfold_calls.
  apply only_bind; [by apply only_load_with_retries|]. intros _.
  apply only_bind;
    [apply (only_weaken _ _ _ loop_no_screenshot), only_base2_pages|]. intros l.
  apply only_bind; [by apply only_perform|]. intros _. apply only_ret.
Qed.

Lemma only_on_error_no_pagination W e : only no_pagination (Extractor.on_error W e).
Proof. unfold Extractor.on_error. unfold_calls. only_auto. Qed.

Lemma only_base_extract_no_pagination W base_url max_pages :
  (max_pages <= 1)%Z ->
  only no_pagination (BaseExtractor.extract W base_url max_pages).
Proof.
  intros Hle. unfold BaseExtractor.extract.
  apply only_bind; [unfold_calls; by apply only_attempt, only_perform|].
  intros [[]|e]; [|apply only_ret].
  apply only_try_except; [|apply only_on_error_no_pagination].
  unfold BaseExtractor.run. unfold_calls.
  apply only_bind; [by apply only_perform|]. intros _.
  apply only_bind; [by apply only_perform|]. intros _.
  apply only_bind; [by apply only_perform|]. intros _.
  apply only_bind; [by apply only_await_containers|]. intros _.
  apply only_bind;
    [apply (only_weaken _ _ _ pass_no_pagination), only_base_pages_last; lia|].
  intros l. apply only_bind; [by apply only_perform|]. intros _. apply only_ret.
Qed.

Lemma only_base2_extract_no_pagination W base_url max_pages :
  (max_pages <= 1)%Z ->
  only no_pagination (Base2Extractor.extract W base_url max_pages).
Proof.
  intros Hle. unfold Base2Extractor.extract.
  apply only_bind.
  { unfold_calls. apply only_attempt, only_bind; [|intros _]; by apply only_perform. }
  intros [[]|e]; [|apply only_ret].
  apply only_try_except; [|apply only_on_error_no_pagination].
  unfold Base2Extractor.run. unfold_calls.
  apply only_bind; [by apply only_load_with_retries|]. intros _.
  apply only_bind;
    [apply (only_weaken _ _ _ pass_no_pagination), only_base2_pages_last; lia|].
  intros l. apply only_bind; [by apply only_perform|]. intros _. apply only_ret.
Qed.

(** Without a page to process, a run that returns returns nothing. *)
Lemma base_extract_no_page W base_url max_pages :
  (max_pages <= 0)%Z ->
  ensures (BaseExtractor.extract W base_url max_pages) (fun l => l = []).
Proof.
  intros Hle. unfold BaseExtractor.extract.
  eapply ensures_bind; [apply ensures_true|]. intros [[]|e] _; [|by apply ensures_ret].
  apply ensures_try_except; [|apply on_error_ensures].
  unfold BaseExtractor.run.
  do 4 (eapply ensures_bind; [apply ensures_true|]; intros _ _).
  eapply ensures_bind with (P := fun l => l = []).
  - rewrite BaseExtractorFacts.base_pages_unfold.
    destruct (Z.leb_spec 1 max_pages); [lia|]. by apply ensures_ret.
  - intros l ->. eapply ensures_bind; [apply ensures_true|]. intros _ _.
    by apply ensures_ret.
Qed.

Lemma base2_extract_no_page W base_url max_pages :
  (max_pages <= 0)%Z ->
  ensures (Base2Extractor.extract W base_url max_pages) (fun l => l = []).
Proof.
  intros Hle. unfold Base2Extractor.extract.
  eapply ensures_bind; [apply ensures_true|]. intros [[]|e] _; [|by apply ensures_ret].
  apply ensures_try_except; [|apply on_error_ensures].
  unfold Base2Extractor.run.
  eapply ensures_bind; [apply ensures_true|]; intros _ _.
  eapply ensures_bind with (P := fun l => l = []).
  - rewrite Base2ExtractorFacts.base2_pages_unfold.
    destruct (Z.leb_spec 1 max_pages); [lia|]. by apply ensures_ret.
  - intros l ->. eapply ensures_bind; [apply ensures_true|]. intros _ _.
    by apply ensures_ret.
Qed.

(** A run that returns records has not been through the handler. *)
Lemma extract_records_no_screenshot W (run : M (list Job)) (open_page : M unit) t l t' :
  only no_screenshot open_page -> only no_screenshot run ->
  (let* page := attempt open_page in
   match page with
   | Raised _ => ret []
   | Returned _ => try_except run (Extractor.on_error W)
   end)%py t = (Returned l, t') ->
  l <> [] ->
  exists new, t' = t ++ new /\ Forall (fun c => is_screenshot c = false) new.
Proof.
  intros Hopen Hrun H Hl.
  assert (Hns : forall new, Forall (fun c => no_screenshot c = true) new ->
                            Forall (fun c => is_screenshot c = false) new).
  { intros new Hnew. eapply Forall_impl; [exact Hnew|].
    intros c. unfold no_screenshot. by destruct (is_screenshot c). }
  unfold bind, attempt in H.
  destruct (open_page t) as [[[]|e] t0] eqn:E0.
  - destruct (Hopen _ _ _ E0) as (n0 & -> & Hn0).
    unfold try_except in H. destruct (run (t ++ n0)) as [[l'|e] t1] eqn:E1.
    + injection H as -> ->. destruct (Hrun _ _ _ E1) as (n1 & -> & Hn1).
      exists (n0 ++ n1). split; [by rewrite app_assoc|].
      apply Hns. by apply Forall_app.
    + apply on_error_ensures in H. done.
  - injection H as <- _. done.
Qed.

End MoreRunFacts.

(** ** try_next_page *)

Module NextPageFacts.
Import Py Spec PyFacts Traces.

(** When no selector finds a control, every selector is asked once, in
    order, and the answer is [false]. *)
Lemma try_selectors_nothing_found W sels :
  (forall t sel,
     match on_query_selector W t sel with
     | Returned (Some _) => False
     | _ => True
     end) ->
  forall t, Extractor.try_selectors W sels t
            = (Returned false, t ++ map QuerySelector sels).
Proof.
  intros Hno. induction sels as [|x sels IH]; intros t; simpl.
  - by rewrite app_nil_r.
  - unfold bind at 1, attempt, Extractor.next_page_step, bind at 1,
      query_selector, perform.
    specialize (Hno t x).
    destruct (on_query_selector W t x) as [[h|]|e]; [done|..];
      cbn; rewrite IH; by rewrite <- app_assoc.
Qed.

(** A step that answers [true] ends on an activation of the control, a
    click or a navigation, followed by a wait for network idle that
    returned. *)
Lemma next_page_step_true W selector t t' :
  Extractor.next_page_step W selector t = (Returned true, t') ->
  exists t1 a,
    t' = t1 ++ [a; WaitForLoadState] /\ is_activation a = true /\
    on_wait_for_load_state W (t1 ++ [a]) = Returned tt.
Proof.
  unfold Extractor.next_page_step, bind, query_selector, is_visible, get_attribute,
    goto, click, wait_for_load_state, perform, ret, raise.
  destruct (on_query_selector W t selector) as [[h|]|e]; [|done..].
  destruct (on_is_visible W _ h) as [[]|e]; [|done..].
  destruct (on_get_attribute W _ h "href") as [target|e]; [|done].
  destruct (Str.truthy (default "" target)).
  - destruct (on_get_attribute W _ h "href") as [[u|]|e]; [|done..].
    destruct (on_goto W _ u) as [[]|e]; [|done].
    match goal with |- context [on_wait_for_load_state W ?x] =>
      destruct (on_wait_for_load_state W x) as [[]|e] eqn:Ew; [|done] end.
    intros [= <-]. eexists _, (Goto u). split; [|split; [reflexivity|exact Ew]].
    by rewrite <- (app_assoc _ [Goto u] [WaitForLoadState]).
  - destruct (on_click W _ h) as [[]|e]; [|done].
    match goal with |- context [on_wait_for_load_state W ?x] =>
      destruct (on_wait_for_load_state W x) as [[]|e] eqn:Ew; [|done] end.
    intros [= <-]. eexists _, (Click h). split; [|split; [reflexivity|exact Ew]].
    by rewrite <- (app_assoc _ [Click h] [WaitForLoadState]).
Qed.

Lemma try_selectors_true W sels t t' :
  Extractor.try_selectors W sels t = (Returned true, t') ->
  exists t1 a,
    t' = t1 ++ [a; WaitForLoadState] /\ is_activation a = true /\
    on_wait_for_load_state W (t1 ++ [a]) = Returned tt.
Proof.
  revert t. induction sels as [|x sels IH]; intros t; simpl; [done|].
  unfold bind, attempt.
  destruct (Extractor.next_page_step W x t) as [[[]|e] t1] eqn:E.
  - intros [= <-]. by eapply next_page_step_true.
  - apply IH.
  - apply IH.
Qed.

End NextPageFacts.

(** ** The keyword fallback *)

Module KeywordFacts.
Import Py Spec Str.

Lemma lower_app a b : lower (a +:+ b) = lower a +:+ lower b.
Proof. induction a as [|c a IH]; simpl; [done|]. by rewrite IH. Qed.

Lemma starts_with_app k b : starts_with k (k +:+ b) = true.
Proof. induction k as [|c k IH]; simpl; [done|]. by rewrite Ascii.eqb_refl. Qed.

Lemma contains_here k s : starts_with k s = true -> contains k s = true.
Proof. intros H. destruct s; simpl in *; by rewrite H. Qed.

Lemma contains_app k a b : contains k (a +:+ k +:+ b) = true.
Proof.
  induction a as [|c a IH].
  - change ("" +:+ k +:+ b) with (k +:+ b). apply contains_here, starts_with_app.
  - change (String c a +:+ k +:+ b) with (String c (a +:+ k +:+ b)).
    cbn [contains]. rewrite IH. apply orb_true_r.
Qed.

(** A keyword anywhere in the content, in any letter case, is found. *)
Lemma has_keyword_anywhere pre word post :
  lower word ∈ Scraper.keywords ->
  Scraper.has_keyword (pre +:+ word +:+ post) = true.
Proof.
  intros Hk. unfold Scraper.has_keyword. apply existsb_exists.
  exists (lower word). split; [by apply list_elem_of_In|].
  rewrite !lower_app. apply contains_app.
Qed.

(** Once the network is idle, a keyword in the content makes the page
    ready, whatever the container patterns find. *)
Lemma wait_for_page_load_keyword W t :
  on_wait_for_load_state W t = Returned tt ->
  (forall t', exists c, on_content W t' = Returned c /\ Scraper.has_keyword c = true) ->
  exists t', Scraper.wait_for_page_load W t = (Returned true, t').
Proof.
  intros Hidle Hc.
  unfold Scraper.wait_for_page_load, try_except, bind at 1, wait_for_load_state, perform.
  rewrite Hidle. unfold bind at 1.
  destruct (ScraperFacts.find_content_returns W Scraper.container_patterns
              (t ++ [WaitForLoadState])) as (b & t1 & -> & _).
  destruct b; [by eexists|].
  unfold bind, content, perform. destruct (Hc t1) as (c & -> & ->). by eexists.
Qed.

End KeywordFacts.

(** * The specification, statement by statement *)

Import Spec.

(** ** Deduplication *)

(** C1, as stated, does not hold: two listings of one run with the same
    title and the same url, hence the same normalized (title, url) key, are
    both kept when they differ in another field (here the location); the
    second occurrence is not discarded. *)
Lemma same_key_kept_twice :
  let pune := {| title := "Engineer"; location := "Pune";
                 url := "https://example.com/jobs/42"; job_id := Some "42" |} in
  let delhi := {| title := "Engineer"; location := "Delhi";
                  url := "https://example.com/jobs/42"; job_id := Some "42" |} in
  let page := Scenario.listing ".job-tile"
                [Scenario.engineer_pune; Scenario.engineer_delhi] in
  spec_dedup_key pune = spec_dedup_key delhi /\
  (BaseExtractor.extract (Scenario.static page) "https://example.com/careers" 1 []).1
  = Py.Returned [pune; delhi].
Proof. vm_compute. split; reflexivity. Qed.

(** C1, amended: the accumulation step identifies records by equality of
    all their fields.  The accumulator is kept as a prefix; the result
    lists records in the order of the input; it holds exactly the records
    of the accumulator and of the page; it has no two equal records; a
    record equal to one seen earlier is discarded; a new record takes the
    position right after what came before it; folding page after page is
    folding the concatenation of the pages; and the list a run returns has
    no two equal records. *)
Theorem dedup_by_record_equality (jobs page_jobs : list Job) :
  jobs `prefix_of` add_new_jobs jobs page_jobs /\
  add_new_jobs jobs page_jobs `sublist_of` jobs ++ page_jobs /\
  (forall job, job ∈ add_new_jobs jobs page_jobs <-> job ∈ jobs \/ job ∈ page_jobs) /\
  (NoDup jobs -> NoDup (add_new_jobs jobs page_jobs)) /\
  (forall l1 x l2, page_jobs = l1 ++ x :: l2 -> x ∈ jobs \/ x ∈ l1 ->
     add_new_jobs jobs page_jobs = add_new_jobs jobs (l1 ++ l2)) /\
  (forall l1 x l2, page_jobs = l1 ++ x :: l2 -> x ∉ jobs -> x ∉ l1 ->
     add_new_jobs jobs l1 ++ [x] `prefix_of` add_new_jobs jobs page_jobs) /\
  (forall pages : list (list Job),
     foldl add_new_jobs jobs pages = add_new_jobs jobs (List.concat pages)) /\
  (forall W base_url max_pages,
     ensures (BaseExtractor.extract W base_url max_pages) NoDup /\
     ensures (Base2Extractor.extract W base_url max_pages) NoDup).
Proof.
  split_and!.
  - apply add_new_jobs_prefix.
  - apply add_new_jobs_sublist.
  - intros job. apply elem_of_add_new_jobs.
  - apply NoDup_add_new_jobs.
  - intros l1 x l2 -> Hx. by apply add_new_jobs_seen.
  - intros l1 x l2 -> H1 H2. rewrite add_new_jobs_fresh by done.
    apply add_new_jobs_prefix.
  - apply foldl_add_new_jobs.
  - intros W base_url max_pages. split.
    + eapply PyFacts.ensures_weaken; [apply RunFacts.base_extract_ensures|].
      intros l Hl. eapply accumulated_NoDup; [done|constructor].
    + eapply PyFacts.ensures_weaken; [apply RunFacts.base2_extract_ensures|].
      intros l Hl. eapply accumulated_NoDup; [done|constructor].
Qed.

Lemma dedup_by_record_equality_witness :
  let a := {| title := "Analyst"; location := "Pune";
              url := "https://example.com/jobs/7"; job_id := None |} in
  let b := {| title := "Engineer"; location := "Pune";
              url := "https://example.com/jobs/42"; job_id := None |} in
  NoDup (add_new_jobs [] [a; b; a]) /\
  add_new_jobs [] [a; b; a] = add_new_jobs [] ([a; b] ++ []).
Proof.
  intros a b.
  pose proof (dedup_by_record_equality [] [a; b; a]) as (_ & _ & _ & Hnd & Hseen & _).
  split.
  - apply Hnd. constructor.
  - apply (Hseen [a; b] a []); [reflexivity|].
    right. apply elem_of_cons. by left.
Defined.

(** C8: merging a list into an accumulator and merging the same list again
    adds nothing; in particular from the empty accumulator. *)
Theorem accumulation_idempotent (jobs L : list Job) :
  add_new_jobs (add_new_jobs [] L) L = add_new_jobs [] L /\
  add_new_jobs (add_new_jobs jobs L) L = add_new_jobs jobs L.
Proof. split; apply add_new_jobs_idem. Qed.

(** ** Extraction passes *)


(** C10: every record of [extract_job_links] has a non-empty url, and a
    container for which no link candidate finds an [href], and which is not
    itself an anchor with an [href], yields no record, whatever its title
    and location. *)
Theorem job_links_records_have_url (s : Selectors) (d : Dom.Document)
  (c : Dom.Container) (W : Py.World) :
  Forall (fun r => url r <> "") (JobLinksScript.job_links s d) /\
  returns (Extractor.extract_job_links W s) (Forall (fun r => url r <> "")) /\
  (Forall (no_link c) (link_selectors s) ->
   ~ (Dom.tagName (Dom.self c) = "A" /\ Dom.has_href (Dom.self c) = true) ->
   JobLinksScript.process_container s c = None).
Proof.
  assert (Hjl : forall d', Forall (fun r => url r <> "") (JobLinksScript.job_links s d')).
  { intros d'. apply JobLinksScriptFacts.job_links_Forall.
    intros c' r Hr. by apply JobLinksScriptFacts.process_container_Some in Hr as (? & _). }
  split_and!.
  - apply Hjl.
  - eapply PyFacts.returns_weaken; [apply ExtractorFacts.extract_job_links_returns|].
    intros l [->|[d' ->]]; [constructor|apply Hjl].
  - apply JobLinksScriptFacts.process_container_no_link.
Qed.

Lemma job_links_records_have_url_witness :
  let c := Scenario.card_without_link "Engineer" "Pune" in
  Dom.querySelector c "h2" = Dom.Ok (Some (Scenario.text_element "H2" "Engineer")) /\
  JobLinksScript.process_container BaseExtractor.selectors c = None.
Proof.
  intros c. split; [reflexivity|].
  apply (job_links_records_have_url BaseExtractor.selectors
           (Scenario.listing ".job-tile" [c]) c Scenario.dead).
  - apply Forall_forall. intros sel _. unfold no_link. simpl.
    destruct (String.eqb sel "h2"); [done|].
    by destruct (String.eqb sel ".job-location").
  - simpl. intros [H _]. discriminate H.
Defined.

(** ** Cascades *)

(** C5, as stated, does not hold for [extract_job_links]: on a page where
    two container patterns match, its script takes the containers of both,
    and the records of one pass come from different patterns. *)
Lemma containers_of_two_patterns :
  let page := Scenario.listing2 ".job-tile" [Scenario.analyst]
                                "[data-job-id]" [Scenario.engineer_pune] in
  matches page ".job-tile" = [Scenario.analyst] /\
  JobLinksScript.findJobElements page (containers BaseExtractor.selectors)
  = [Scenario.analyst; Scenario.engineer_pune] /\
  JobLinksScript.job_links BaseExtractor.selectors page
  = [ {| title := "Analyst"; location := "Pune";
         url := "https://example.com/jobs/7"; job_id := None |};
      {| title := "Engineer"; location := "Pune";
         url := "https://example.com/jobs/42"; job_id := None |} ].
Proof. vm_compute. repeat split; reflexivity. Qed.

(** C5, amended: in the script of [extract] all containers of a page are
    the matches of one pattern, the first in the list that matches
    anything; the script of [extract_job_links] takes the matches of every
    pattern, pattern after pattern. *)
Theorem containers_of_a_page (s : Selectors) (d : Dom.Document) :
  match ExtractScript.find_containers d (containers s) with
  | Dom.Ok cs =>
      (cs = [] /\
       Forall (fun sel => Dom.querySelectorAll d sel = Dom.Ok []) (containers s)) \/
      (exists pre sel post,
          containers s = pre ++ sel :: post /\
          Forall (fun sel' => Dom.querySelectorAll d sel' = Dom.Ok []) pre /\
          Dom.querySelectorAll d sel = Dom.Ok cs /\ cs <> [])
  | Dom.Throw => True
  end /\
  JobLinksScript.findJobElements d (containers s)
  = List.concat (map (matches d) (containers s)).
Proof.
  split.
  - destruct (ExtractScript.find_containers d (containers s)) eqn:E; [|done].
    by apply ExtractScriptFacts.find_containers_first.
  - apply JobLinksScriptFacts.findJobElements_all.
Qed.




(** ** Readiness *)

(** C7: when no container pattern ever matches and the keyword fallback
    fails, the readiness check returns [false], it does not raise, and
    [extract_job_links], its caller, returns the empty list; when moreover
    the network-idle signal never fires, the check gives up at its first
    layer, and the caller reloads once, checks once more and returns the
    empty list. *)
Theorem readiness_false_not_error (W : Py.World) :
  no_container_ever_matches W -> keyword_fallback_fails W ->
  (forall t, exists t', Scraper.wait_for_page_load W t = (Py.Returned false, t')) /\
  (forall s t, exists t', Extractor.extract_job_links W s t = (Py.Returned [], t')) /\
  (idle_never_fires W ->
   (forall t, Scraper.wait_for_page_load W t
              = (Py.Returned false, t ++ [Py.WaitForLoadState])) /\
   (forall s t,
      Extractor.extract_job_links W s t
      = (Py.Returned [],
         t ++ [Py.Sleep 2; Py.WaitForLoadState; Py.Reload] ++
           match Py.on_reload W (t ++ [Py.Sleep 2; Py.WaitForLoadState]) with
           | Py.Returned _ => [Py.Sleep 5; Py.WaitForLoadState]
           | Py.Raised _ => []
           end))).
Proof.
  intros Hno Hkw.
  pose proof (ScraperFacts.wait_for_page_load_no_content W Hno Hkw) as Hw.
  split_and!.
  - exact Hw.
  - intros s. by apply RunFacts.extract_job_links_not_ready.
  - intros Hidle. split.
    + intros t. eapply ScraperFacts.wait_for_page_load_no_idle, Hidle.
    + intros s t. by apply RunFacts.extract_job_links_no_idle.
Qed.

Lemma readiness_false_not_error_witness :
  Scraper.wait_for_page_load Scenario.dead [] = (Py.Returned false, [Py.WaitForLoadState]) /\
  Extractor.extract_job_links Scenario.dead BaseExtractor.selectors []
  = (Py.Returned [],
     [Py.Sleep 2; Py.WaitForLoadState; Py.Reload; Py.Sleep 5; Py.WaitForLoadState]).
Proof.
  assert (Hno : no_container_ever_matches Scenario.dead) by (intros t p; exact I).
  assert (Hkw : keyword_fallback_fails Scenario.dead) by (intros t; reflexivity).
  assert (Hidle : idle_never_fires Scenario.dead) by (intros t; reflexivity).
  destruct (readiness_false_not_error Scenario.dead Hno Hkw) as (_ & _ & Hexact).
  destruct (Hexact Hidle) as [Hw Hl]. split.
  - apply (Hw []).
  - apply (Hl BaseExtractor.selectors []).
Defined.

(** ** Runs *)



(** What the hypothesis on [close] is for: when the navigation fails and
    [close] fails in the handler, the exception of [close] leaves
    [extract]. *)
Remark close_failure_escapes :
  BaseExtractor.extract Scenario.dead_unclosable "https://example.com/careers" 2 []
  = (Py.Raised Py.Error,
     [Py.NewPage; Py.Goto "https://example.com/careers"; Py.Screenshot; Py.Close]).
Proof. reflexivity. Qed.







(** * Further properties of the code *)

(** ** What a run does to the browser *)

(** X1: a run evaluates the in-page script at most [max_pages] times (not at
    all when [max_pages] is zero or negative), in both files, whatever the
    browser answers. *)
Theorem page_budget (W : Py.World) (base_url : string) (max_pages : Z) :
  Traces.at_most Traces.is_evaluate (Z.to_nat max_pages)
    (BaseExtractor.extract W base_url max_pages) /\
  Traces.at_most Traces.is_evaluate (Z.to_nat max_pages)
    (Base2Extractor.extract W base_url max_pages).
Proof.
  split; [apply CountFacts.evaluate_base_extract|apply CountFacts.evaluate_base2_extract].
Qed.

(** X2: with [max_pages] at most 1 a run never looks for a next-page
    control: it queries, inspects and clicks none. *)
Theorem no_pagination_within_one_page (W : Py.World) (base_url : string)
  (max_pages : Z) :
  (max_pages <= 1)%Z ->
  Traces.only Traces.no_pagination (BaseExtractor.extract W base_url max_pages) /\
  Traces.only Traces.no_pagination (Base2Extractor.extract W base_url max_pages).
Proof.
  intros Hle. split.
  - by apply MoreRunFacts.only_base_extract_no_pagination.
  - by apply MoreRunFacts.only_base2_extract_no_pagination.
Qed.

Lemma no_pagination_within_one_page_witness :
  let W := Scenario.second_page_hangs (Scenario.listing ".job-tile" [Scenario.analyst]) in
  Traces.only Traces.no_pagination (BaseExtractor.extract W "https://example.com/careers" 1) /\
  Traces.only Traces.no_pagination (Base2Extractor.extract W "https://example.com/careers" 1).
Proof.
  intros W. apply (no_pagination_within_one_page W "https://example.com/careers" 1). lia.
Defined.

(** X3: with [max_pages] zero or negative the loop is not entered: a run
    that returns returns the empty list. *)
Theorem no_page_no_record (W : Py.World) (base_url : string) (max_pages : Z) :
  (max_pages <= 0)%Z ->
  ensures (BaseExtractor.extract W base_url max_pages) (fun l => l = []) /\
  ensures (Base2Extractor.extract W base_url max_pages) (fun l => l = []).
Proof.
  intros Hle. split.
  - by apply MoreRunFacts.base_extract_no_page.
  - by apply MoreRunFacts.base2_extract_no_page.
Qed.

Lemma no_page_no_record_witness :
  let W := Scenario.static (Scenario.listing ".job-tile" [Scenario.analyst]) in
  (BaseExtractor.extract W "https://example.com/careers" 0 []).1 = Py.Returned [] /\
  (Base2Extractor.extract W "https://example.com/careers" (-3) []).1 = Py.Returned [].
Proof.
  intros W.
  destruct (no_page_no_record W "https://example.com/careers" 0) as [H0 _]; [lia|].
  destruct (no_page_no_record W "https://example.com/careers" (-3)) as [_ H3]; [lia|].
  split.
  - destruct (BaseExtractor.extract W "https://example.com/careers" 0 [])
      as [[l|e] t'] eqn:E; [|discriminate E].
    simpl. f_equal. by eapply H0.
  - destruct (Base2Extractor.extract W "https://example.com/careers" (-3) [])
      as [[l|e] t'] eqn:E; [|discriminate E].
    simpl. f_equal. by eapply H3.
Defined.

(** X4: once the page is open, the last call of a run is [close], on every
    path: normal completion, an exception handled by the [except] clause,
    and an exception of [close] itself. *)
Theorem page_closed_on_every_path (W : Py.World) (base_url : string)
  (max_pages : Z) (t : Py.trace) (r : Py.outcome (list Job)) (t' : Py.trace) :
  (Py.on_new_page W t = Py.Returned tt ->
   BaseExtractor.extract W base_url max_pages t = (r, t') ->
   exists t1, t' = t1 ++ [Py.Close]) /\
  (forall t0,
     Py.bind (Py.new_context W) (fun _ => Py.new_page W) t = (Py.Returned tt, t0) ->
     Base2Extractor.extract W base_url max_pages t = (r, t') ->
     exists t1, t' = t1 ++ [Py.Close]).
Proof.
  split.
  - intros Hp. unfold BaseExtractor.extract.
    assert (E : Py.new_page W t = (Py.Returned tt, t ++ [Py.NewPage]))
      by (unfold Py.new_page, Py.perform; by rewrite Hp).
    rewrite (RunFacts.bind_returned _ _ _ _ _ (RunFacts.attempt_returned _ _ _ _ E)).
    apply MoreRunFacts.try_except_on_error_trace.
    intros l t1. apply MoreRunFacts.base_run_trace.
  - intros t0 E. unfold Base2Extractor.extract.
    rewrite (RunFacts.bind_returned _ _ _ _ _ (RunFacts.attempt_returned _ _ _ _ E)).
    apply MoreRunFacts.try_except_on_error_trace.
    intros l t1. apply MoreRunFacts.base2_run_trace.
Qed.

Lemma page_closed_on_every_path_witness :
  exists t1,
    [Py.NewPage; Py.Goto "https://example.com/careers"; Py.Screenshot; Py.Close]
    = t1 ++ [Py.Close].
Proof.
  apply (page_closed_on_every_path Scenario.dead_unclosable
           "https://example.com/careers" 2 [] (Py.Raised Py.Error)); reflexivity.
Defined.

(** X5: a run that returns at least one record has taken no screenshot:
    the diagnostic capture belongs to the failure path, which returns the
    empty list. *)
Theorem records_mean_no_screenshot (W : Py.World) (base_url : string)
  (max_pages : Z) (t : Py.trace) (l : list Job) (t' : Py.trace) :
  l <> [] ->
  (BaseExtractor.extract W base_url max_pages t = (Py.Returned l, t') ->
   exists new, t' = t ++ new /\ Forall (fun c => Traces.is_screenshot c = false) new) /\
  (Base2Extractor.extract W base_url max_pages t = (Py.Returned l, t') ->
   exists new, t' = t ++ new /\ Forall (fun c => Traces.is_screenshot c = false) new).
Proof.
  intros Hl. split; intros H.
  - eapply (MoreRunFacts.extract_records_no_screenshot W
              (BaseExtractor.run W base_url max_pages) (Py.new_page W)); eauto.
    + by apply TraceFacts.only_perform.
    + apply MoreRunFacts.only_base_run_no_screenshot.
  - eapply (MoreRunFacts.extract_records_no_screenshot W
              (Base2Extractor.run W base_url max_pages)
              (Py.bind (Py.new_context W) (fun _ => Py.new_page W))); eauto.
    + apply TraceFacts.only_bind; [|intros _]; by apply TraceFacts.only_perform.
    + apply MoreRunFacts.only_base2_run_no_screenshot.
Qed.

Lemma records_mean_no_screenshot_witness :
  let W := Scenario.static (Scenario.listing ".job-tile" [Scenario.analyst]) in
  exists new,
    [Py.NewPage; Py.Goto "u"; Py.WaitForLoadState; Py.Sleep 2;
     Py.WaitForSelector ".job-tile"; Py.QuerySelectorAll ".job-tile";
     Py.WaitForLoadState; Py.Sleep 2; Py.Evaluate; Py.Close] = [] ++ new /\
    Forall (fun c => Traces.is_screenshot c = false) new.
Proof.
  intros W.
  destruct (records_mean_no_screenshot W "u" 1 []
              [ {| title := "Analyst"; location := "Pune";
                   url := "https://example.com/jobs/7"; job_id := Some "7" |} ]
              [Py.NewPage; Py.Goto "u"; Py.WaitForLoadState; Py.Sleep 2;
               Py.WaitForSelector ".job-tile"; Py.QuerySelectorAll ".job-tile";
               Py.WaitForLoadState; Py.Sleep 2; Py.Evaluate; Py.Close])
    as [Hbase _]; [discriminate|].
  apply Hbase. vm_compute. reflexivity.
Defined.

(** X6: the readiness check only waits and reads the content: it never
    navigates, reloads, clicks or evaluates, whatever it finds. *)
Theorem readiness_check_is_passive (W : Py.World) :
  Traces.only Traces.is_passive (Scraper.wait_for_page_load W).
Proof. apply CallFacts.only_wait_for_page_load. Qed.

(** X7: one call of [extract_job_links] makes only the calls of a pass
    (delays, waits, reading the content, reload, evaluation), and among
    them at most one reload and at most one evaluation. *)
Theorem one_pass_one_reload_one_evaluation (W : Py.World) (s : Selectors) :
  Traces.only Traces.is_pass_call (Extractor.extract_job_links W s) /\
  Traces.at_most Traces.is_reload 1 (Extractor.extract_job_links W s) /\
  Traces.at_most Traces.is_evaluate 1 (Extractor.extract_job_links W s).
Proof.
  split_and!.
  - apply CallFacts.only_extract_job_links.
  - apply CountFacts.one_reload_extract_job_links.
  - apply CountFacts.one_evaluate_extract_job_links.
Qed.


(** ** Pagination and readiness *)

(** X9: when no selector finds a next-page control (the query answers
    nothing or raises), [try_next_page] asks every selector of its list
    once, in order, makes no other call, and answers [false]. *)
Theorem no_control_no_next_page (W : Py.World) :
  (forall t sel,
     match Py.on_query_selector W t sel with
     | Py.Returned (Some _) => False
     | _ => True
     end) ->
  forall t, Extractor.try_next_page W t
            = (Py.Returned false, t ++ map Py.QuerySelector Extractor.next_page_selectors).
Proof. intros Hno. by apply NextPageFacts.try_selectors_nothing_found. Qed.

Lemma no_control_no_next_page_witness :
  Extractor.try_next_page Scenario.dead [Py.Sleep 5]
  = (Py.Returned false,
     [Py.Sleep 5] ++ map Py.QuerySelector Extractor.next_page_selectors).
Proof.
  apply (no_control_no_next_page Scenario.dead). intros t sel. exact I.
Defined.

(** X10: when [try_next_page] answers [true], the last two calls it made
    are an activation of a control, a click or a navigation to its [href],
    and a wait for network idle that returned. *)
Theorem next_page_means_activation (W : Py.World) (t t' : Py.trace) :
  Extractor.try_next_page W t = (Py.Returned true, t') ->
  exists t1 a,
    t' = t1 ++ [a; Py.WaitForLoadState] /\ Traces.is_activation a = true /\
    Py.on_wait_for_load_state W (t1 ++ [a]) = Py.Returned tt.
Proof. apply NextPageFacts.try_selectors_true. Qed.

Lemma next_page_means_activation_witness :
  let W := Scenario.second_page_hangs (Scenario.listing ".job-tile" []) in
  exists t1 a,
    [Py.QuerySelector (Str.attr "" "aria-label" "*=" "Next"); Py.IsVisible 1;
     Py.GetAttribute 1 "href"; Py.Click 1; Py.WaitForLoadState]
    = t1 ++ [a; Py.WaitForLoadState] /\ Traces.is_activation a = true /\
    Py.on_wait_for_load_state W (t1 ++ [a]) = Py.Returned tt.
Proof.
  intros W. apply (next_page_means_activation W []). vm_compute. reflexivity.
Defined.

(** X11: once the network is idle, a keyword ("job", "career", "position")
    anywhere in the page content, in any letter case, makes the readiness
    check answer [true], even when no container pattern matches. *)
Theorem keyword_makes_ready (W : Py.World) (t : Py.trace) :
  Py.on_wait_for_load_state W t = Py.Returned tt ->
  (forall t', exists pre word post,
      Py.on_content W t' = Py.Returned (pre +:+ word +:+ post) /\
      Str.lower word ∈ Scraper.keywords) ->
  exists t', Scraper.wait_for_page_load W t = (Py.Returned true, t').
Proof.
  intros Hidle Hc. apply KeywordFacts.wait_for_page_load_keyword; [done|].
  intros t1. destruct (Hc t1) as (pre & word & post & -> & Hk).
  eexists. split; [reflexivity|]. by apply KeywordFacts.has_keyword_anywhere.
Qed.

Lemma keyword_makes_ready_witness :
  exists t', Scraper.wait_for_page_load Scenario.keyword_only [] = (Py.Returned true, t').
Proof.
  apply (keyword_makes_ready Scenario.keyword_only []); [reflexivity|].
  intros t'. exists "Open ", "POSITION", "S at Acme". split; [reflexivity|].
  apply list_elem_of_In. right. right. left. reflexivity.
Defined.
